(** * gitlab-shell, package client: construction of the outbound HTTP client

    A shallow embedding of [client/httpclient.go].  Go strings are byte
    strings ([string] of [ascii]); [int], [uint64] and [time.Duration] are
    integers in [Z] with the wrap-around of the 64-bit types written out
    where the code does arithmetic; a Go [(value, error)] result is a pair
    with an [option error] ([None] is [nil]).  The operating system, the
    platform's certificate store and the PEM and key-pair decoders are an
    explicit [World] the code reads from; every read is recorded in a trace
    of [Event]s, so that what construction touched, and in which order, can
    be stated. *)

From Stdlib Require Import ZArith String Ascii List Bool Lia.
Import ListNotations.

Local Open Scope list_scope.
Local Open Scope string_scope.
Local Open Scope Z_scope.

(* ===================================================================== *)
(** ** Go's [strings] package, the three functions the client uses *)

Module Strings.

(** [strings.HasPrefix(s, prefix)]. *)
Fixpoint HasPrefix (s pre : string) {struct pre} : bool :=
  match pre with
  | EmptyString => true
  | String p pre' =>
      match s with
      | EmptyString => false
      | String c s' => Ascii.eqb c p && HasPrefix s' pre'
      end
  end.

(** [s[n:]] for [n <= len(s)]. *)
Fixpoint drop (n : nat) (s : string) : string :=
  match n, s with
  | O, _ => s
  | S n', String _ s' => drop n' s'
  | S _, EmptyString => EmptyString
  end.

(** [strings.TrimPrefix(s, prefix)]: [s] without the leading [prefix],
    [s] itself when it does not start with [prefix]. *)
Definition TrimPrefix (s pre : string) : string :=
  if HasPrefix s pre then drop (String.length pre) s else s.

(** Membership of a byte in a cutset. *)
Fixpoint inCutset (cutset : string) (c : ascii) : bool :=
  match cutset with
  | EmptyString => false
  | String k rest => Ascii.eqb c k || inCutset rest c
  end.

(** [for len(s) > 0 && s[0] == c { s = s[1:] }] *)
Fixpoint trimLeft (s cutset : string) : string :=
  match s with
  | EmptyString => EmptyString
  | String c s' => if inCutset cutset c then trimLeft s' cutset else s
  end.

(** [for len(s) > 0 && s[len(s)-1] == c { s = s[:len(s)-1] }] *)
Fixpoint trimRight (s cutset : string) : string :=
  match s with
  | EmptyString => EmptyString
  | String c s' =>
      match trimRight s' cutset with
      | EmptyString => if inCutset cutset c then EmptyString else String c EmptyString
      | r => String c r
      end
  end.

(** [strings.Trim(s, cutset)] for a cutset of ASCII bytes (the client
    passes ["/"]): Go trims the right end first, then the left end. *)
Definition Trim (s cutset : string) : string :=
  trimLeft (trimRight s cutset) cutset.

(** A string made only of bytes of the cutset. *)
Fixpoint allIn (cutset s : string) : bool :=
  match s with
  | EmptyString => true
  | String c s' => inCutset cutset c && allIn cutset s'
  end.

(** First and last byte of a string. *)
Definition first (s : string) : option ascii :=
  match s with
  | EmptyString => None
  | String c _ => Some c
  end.

Fixpoint last (s : string) : option ascii :=
  match s with
  | EmptyString => None
  | String c EmptyString => Some c
  | String _ s' => last s'
  end.

End Strings.

(* ===================================================================== *)
(** ** Go's [time.Duration]: a signed 64-bit count of nanoseconds *)

Module Time.

Definition Duration := Z.

(** Reduction of an integer to the range of [int64] (two's complement):
    what a conversion to, or an arithmetic operation on, [int64] keeps. *)
Definition int64 (z : Z) : Z := (z + 2 ^ 63) mod 2 ^ 64 - 2 ^ 63.

Definition maxUint64 : Z := 2 ^ 64 - 1.

Definition Second : Duration := 1000000000.

(** [a * b] on [time.Duration]. *)
Definition mul (a b : Duration) : Duration := int64 (a * b).

(** The duration of [n] whole seconds, as a number of nanoseconds. *)
Definition seconds (n : Z) : Z := n * 1000000000.

End Time.

(* ===================================================================== *)
(** ** Go errors *)

Module Errors.

(** The error numbers [os.Stat] can fail with that matter here. *)
Inductive Errno := ENOENT | EACCES | ENOTDIR | ELOOP | EIO.

Definition Errno_message (e : Errno) : string :=
  match e with
  | ENOENT => "no such file or directory"
  | EACCES => "permission denied"
  | ENOTDIR => "not a directory"
  | ELOOP => "too many levels of symbolic links"
  | EIO => "input/output error"
  end.

(** - [errorString]: a value made by [errors.New];
    - [wrapError]: a value made by [fmt.Errorf] with one [%w] verb, the
      formatted message and the wrapped error;
    - [PathError]: [*fs.PathError], what the [os] functions return;
    - [opaqueError]: any other error of a library (X.509, TLS, PEM). *)
Inductive error :=
| errorString (msg : string)
| wrapError (msg : string) (err : error)
| PathError (op path : string) (errno : Errno)
| opaqueError (msg : string).

(** [err.Error()]. *)
Definition Error (e : error) : string :=
  match e with
  | errorString m => m
  | wrapError m _ => m
  | PathError op path errno => op ++ " " ++ path ++ ": " ++ Errno_message errno
  | opaqueError m => m
  end.

(** [errors.New(msg)].  Go compares such values by identity; the package
    makes two of them, with different messages, so that comparing the
    messages decides identity. *)
Definition New (msg : string) : error := errorString msg.

Definition Errno_eqb (a b : Errno) : bool :=
  match a, b with
  | ENOENT, ENOENT | EACCES, EACCES | ENOTDIR, ENOTDIR
  | ELOOP, ELOOP | EIO, EIO => true
  | _, _ => false
  end.

(** [==] on error values. *)
Fixpoint error_eqb (a b : error) : bool :=
  match a, b with
  | errorString m, errorString m' => String.eqb m m'
  | wrapError m e, wrapError m' e' => String.eqb m m' && error_eqb e e'
  | PathError o p n, PathError o' p' n' =>
      String.eqb o o' && String.eqb p p' && Errno_eqb n n'
  | opaqueError m, opaqueError m' => String.eqb m m'
  | _, _ => false
  end.

(** [errors.Unwrap(err)]. *)
Definition Unwrap (e : error) : option error :=
  match e with
  | wrapError _ inner => Some inner
  | _ => None
  end.

(** [errors.Is(err, target)]: [err] or an error it wraps is [target]. *)
Fixpoint Is (e target : error) : bool :=
  error_eqb e target ||
  match e with
  | wrapError _ inner => Is inner target
  | _ => false
  end.

(** [fmt.Errorf(format, ..., err)] where [format] ends in [": %w"] and
    [prefix] is the formatted text before it. *)
Definition Errorf_w (prefix : string) (err : error) : error :=
  wrapError (prefix ++ ": " ++ Error err) err.

(** [os.IsNotExist(err)]. *)
Definition IsNotExist (e : error) : bool :=
  match e with
  | PathError _ _ ENOENT => true
  | _ => false
  end.

(** The result of a fallible library call that returns a value or an
    error, never both. *)
Inductive result (A : Type) :=
| Ok (a : A)
| Err (e : error).
Arguments Ok {A} a.
Arguments Err {A} e.

End Errors.

(* ===================================================================== *)
(** ** What construction reads: filesystem, certificate store, decoders *)

Module Platform.
Import Errors.

(** An X.509 certificate, identified by its DER bytes. *)
Definition x509_Certificate := string.

(** [*x509.CertPool]: the certificates of the pool, in insertion order. *)
Definition CertPool := list x509_Certificate.

(** [tls.Certificate]: a certificate chain and its private key. *)
Record tls_Certificate := {
  Chain : list x509_Certificate;
  PrivateKey : string
}.

(** [os.DirEntry], as far as the client looks at it. *)
Record DirEntry := {
  Name : string;
  IsDir : bool
}.

Record World := {
  (** [os.Stat(name)]: [None] when the file information is returned. *)
  stat : string -> option error;
  (** [os.ReadFile(name)]. *)
  readFile : string -> result string;
  (** [os.ReadDir(name)]: the entries read, sorted by name, and the error
      that stopped the reading, if any. *)
  readDir : string -> list DirEntry * option error;
  (** [x509.SystemCertPool()]. *)
  systemCertPool : result CertPool;
  (** [tls.LoadX509KeyPair(certFile, keyFile)]. *)
  loadX509KeyPair : string -> string -> result tls_Certificate;
  (** The certificates [AppendCertsFromPEM] decodes from PEM data: the
      CERTIFICATE blocks that parse, in order; none for malformed data. *)
  pemCertificates : string -> list x509_Certificate;
  (** [filepath.Clean(path)]. *)
  clean : string -> string
}.

(** The reads of the world and the allocations of trust state, as they
    happen. *)
Inductive Event :=
| EvStat (name : string)
| EvSystemCertPool
| EvNewCertPool
| EvReadFile (name : string)
| EvReadDir (name : string)
| EvLoadX509KeyPair (certFile keyFile : string).

(** A computation that reads the world and logs its events in order. *)
Definition IO (A : Type) : Type := World -> A * list Event.

Definition ret {A} (a : A) : IO A := fun _ => (a, []).

Definition bind {A B} (m : IO A) (k : A -> IO B) : IO B :=
  fun w =>
    let (a, t1) := m w in
    let (b, t2) := k a w in
    (b, (t1 ++ t2)%list).

Declare Scope io_scope.
Delimit Scope io_scope with io.
Notation "x <- m ;; k" := (bind m (fun x => k))
  (at level 61, m at next level, right associativity) : io_scope.
Notation "' pat <- m ;; k" := (bind m (fun x => match x with pat => k end))
  (at level 61, pat pattern, m at next level, right associativity) : io_scope.

Definition os_Stat (name : string) : IO (option error) :=
  fun w => (stat w name, [EvStat name]).

Definition os_ReadFile (name : string) : IO (result string) :=
  fun w => (readFile w name, [EvReadFile name]).

Definition os_ReadDir (name : string) : IO (list DirEntry * option error) :=
  fun w => (readDir w name, [EvReadDir name]).

Definition x509_SystemCertPool : IO (result CertPool) :=
  fun w => (systemCertPool w, [EvSystemCertPool]).

Definition x509_NewCertPool : IO CertPool :=
  fun _ => ([], [EvNewCertPool]).

Definition tls_LoadX509KeyPair (certFile keyFile : string)
  : IO (result tls_Certificate) :=
  fun w => (loadX509KeyPair w certFile keyFile, [EvLoadX509KeyPair certFile keyFile]).

Definition filepath_Clean (path : string) : IO string :=
  fun w => (clean w path, []).

(** [filepath.Join(dir, name)]: the non-empty elements joined with the
    separator and cleaned; the empty string when both are empty. *)
Definition filepath_Join (dir name : string) : IO string :=
  if String.eqb dir "" then
    if String.eqb name "" then ret "" else filepath_Clean name
  else filepath_Clean (dir ++ "/" ++ name).

(** [CertPool.AddCert]: a certificate already in the pool is not added
    again. *)
Definition AddCert (pool : CertPool) (c : x509_Certificate) : CertPool :=
  if existsb (String.eqb c) pool then pool else (pool ++ [c])%list.

(** [CertPool.AppendCertsFromPEM(pemCerts)]: the pool after the call
    (the client drops the boolean the call returns). *)
Definition AppendCertsFromPEM (pool : CertPool) (pemCerts : string) : IO CertPool :=
  fun w => (fold_left AddCert (pemCertificates w pemCerts) pool, []).

End Platform.

(* ===================================================================== *)
(** ** [net/http], [crypto/tls] and [go-retryablehttp] values *)

Module Http.
Import Platform.

(** [context.Context], by identity. *)
Inductive Context := ctxHandle (id : nat).

(** A call [net.Dialer{}.DialContext(ctx, network, address)]. *)
Record DialCall := {
  dialCtx : Context;
  dialNetwork : string;
  dialAddress : string
}.

Definition VersionTLS12 : Z := 771.

(** [tls.Config], the fields the client sets. *)
Record tls_Config := {
  RootCAs : CertPool;
  MinVersion : Z;
  Certificates : list tls_Certificate
}.

(** [http.Transport]: the [DialContext] hook maps the arguments it is
    called with to the dial it performs; [None] is an unset field. *)
Record Transport := {
  DialContext : option (Context -> string -> string -> DialCall);
  TLSClientConfig : option tls_Config
}.

(** [&http.Transport{}] *)
Definition emptyTransport : Transport :=
  {| DialContext := None; TLSClientConfig := None |}.

(** Modelled from the spec: [NewTransport] (client/transport.go, not
    part of the sources at hand) installs the built transport as the
    underlying transport of the round tripper it returns.  [pooled] is
    the transport [retryablehttp.NewClient] starts with. *)
Inductive RoundTripper :=
| pooled
| NewTransport (next : option Transport).

(** [http.Client] *)
Record Client := {
  ClientTransport : RoundTripper;
  Timeout : Time.Duration
}.

End Http.

Module Retryablehttp.

(** The values of the [Logger] field: the logger to standard error that
    [NewClient] installs. *)
Inductive LoggerValue := defaultLogger.

(** [retryablehttp.Client], the fields the client sets. *)
Record Client := {
  HTTPClient : Http.Client;
  Logger : option LoggerValue;
  RetryWaitMin : Time.Duration;
  RetryWaitMax : Time.Duration;
  RetryMax : Z
}.

(** [retryablehttp.NewClient()] *)
Definition NewClient : Client :=
  {| HTTPClient := {| Http.ClientTransport := Http.pooled; Http.Timeout := 0 |};
     Logger := Some defaultLogger;
     RetryWaitMin := Time.Second;
     RetryWaitMax := 30 * Time.Second;
     RetryMax := 4 |}.

(** Assignments to the fields of a client. *)
Definition setRetryMax (v : Z) (c : Client) : Client :=
  {| HTTPClient := HTTPClient c; Logger := Logger c;
     RetryWaitMin := RetryWaitMin c; RetryWaitMax := RetryWaitMax c;
     RetryMax := v |}.

Definition setRetryWaitMax (v : Time.Duration) (c : Client) : Client :=
  {| HTTPClient := HTTPClient c; Logger := Logger c;
     RetryWaitMin := RetryWaitMin c; RetryWaitMax := v;
     RetryMax := RetryMax c |}.

Definition setRetryWaitMin (v : Time.Duration) (c : Client) : Client :=
  {| HTTPClient := HTTPClient c; Logger := Logger c;
     RetryWaitMin := v; RetryWaitMax := RetryWaitMax c;
     RetryMax := RetryMax c |}.

Definition setLogger (v : option LoggerValue) (c : Client) : Client :=
  {| HTTPClient := HTTPClient c; Logger := v;
     RetryWaitMin := RetryWaitMin c; RetryWaitMax := RetryWaitMax c;
     RetryMax := RetryMax c |}.

Definition setTransport (v : Http.RoundTripper) (c : Client) : Client :=
  {| HTTPClient := {| Http.ClientTransport := v;
                      Http.Timeout := Http.Timeout (HTTPClient c) |};
     Logger := Logger c;
     RetryWaitMin := RetryWaitMin c; RetryWaitMax := RetryWaitMax c;
     RetryMax := RetryMax c |}.

Definition setTimeout (v : Time.Duration) (c : Client) : Client :=
  {| HTTPClient := {| Http.ClientTransport := Http.ClientTransport (HTTPClient c);
                      Http.Timeout := v |};
     Logger := Logger c;
     RetryWaitMin := RetryWaitMin c; RetryWaitMax := RetryWaitMax c;
     RetryMax := RetryMax c |}.

End Retryablehttp.

(* ===================================================================== *)
(** ** [client/httpclient.go] *)

Module Client.
Import Errors Platform.
Local Open Scope io_scope.

Definition socketBaseURL : string := "http://unix".
Definition unixSocketProtocol : string := "http+unix://".
Definition httpProtocol : string := "http://".
Definition httpsProtocol : string := "https://".
Definition defaultReadTimeoutSeconds : Z := 300.
Definition defaultRetryWaitMinimum : Time.Duration := Time.Second.
Definition defaultRetryWaitMaximum : Time.Duration := 15 * Time.Second.
Definition defaultRetryMax : Z := 2.

(** [var ErrCafileNotFound = errors.New("cafile not found")] *)
Definition ErrCafileNotFound : error := New "cafile not found".

Record HTTPClient := {
  RetryableHTTP : Retryablehttp.Client;
  Host : string
}.

Record httpClientCfg := {
  keyPath : string;
  certPath : string;
  caFile : string;
  caPath : string;
  retryWaitMin : Time.Duration;
  retryWaitMax : Time.Duration;
  retryMax : Z
}.

Definition nonEmpty (s : string) : bool := negb (String.eqb s "").

Definition HaveCertAndKey (hcc : httpClientCfg) : bool :=
  nonEmpty (keyPath hcc) && nonEmpty (certPath hcc).

(** [HTTPClientOpt], a function on a pointer to the configuration: the
    update of the configuration the option performs. *)
Definition HTTPClientOpt := httpClientCfg -> httpClientCfg.

Definition WithClientCert (certPath keyPath : string) : HTTPClientOpt :=
  fun hcc =>
    {| keyPath := keyPath;
       certPath := certPath;
       caFile := caFile hcc;
       caPath := caPath hcc;
       retryWaitMin := retryWaitMin hcc;
       retryWaitMax := retryWaitMax hcc;
       retryMax := retryMax hcc |}.

Definition WithHTTPRetryOpts (waitMin waitMax : Time.Duration) (maxAttempts : Z)
  : HTTPClientOpt :=
  fun hcc =>
    {| keyPath := keyPath hcc;
       certPath := certPath hcc;
       caFile := caFile hcc;
       caPath := caPath hcc;
       retryWaitMin := waitMin;
       retryWaitMax := waitMax;
       retryMax := maxAttempts |}.

Definition validateCaFile (filename : string) : IO (option error) :=
  if String.eqb filename "" then ret None
  else
    serr <- os_Stat filename ;;
    match serr with
    | Some err =>
        if IsNotExist err
        then ret (Some (Errorf_w ("cannot find cafile '" ++ filename ++ "'")
                                 ErrCafileNotFound))
        else ret (Some err)
    | None => ret None
    end.

Definition buildSocketTransport (gitlabURL gitlabRelativeURLRoot : string)
  : Http.Transport * string :=
  let socketPath := Strings.TrimPrefix gitlabURL unixSocketProtocol in
  let transport :=
    {| Http.DialContext := Some (fun ctx _ _ =>
         {| Http.dialCtx := ctx;
            Http.dialNetwork := "unix";
            Http.dialAddress := socketPath |});
       Http.TLSClientConfig := None |} in
  let host := socketBaseURL in
  let gitlabRelativeURLRoot := Strings.Trim gitlabRelativeURLRoot "/" in
  let host :=
    if nonEmpty gitlabRelativeURLRoot
    then host ++ "/" ++ gitlabRelativeURLRoot
    else host in
  (transport, host).

Definition addCertToPool (certPool : CertPool) (fileName : string) : IO CertPool :=
  name <- filepath_Clean fileName ;;
  r <- os_ReadFile name ;;
  match r with
  | Ok cert => AppendCertsFromPEM certPool cert
  | Err _ => ret certPool
  end.

(** The loop [for _, fi := range fis] of [buildHTTPSTransport]. *)
Fixpoint rangeCaPath (certPool : CertPool) (dir : string) (fis : list DirEntry)
  : IO CertPool :=
  match fis with
  | [] => ret certPool
  | fi :: rest =>
      if IsDir fi then rangeCaPath certPool dir rest
      else
        name <- filepath_Join dir (Name fi) ;;
        certPool <- addCertToPool certPool name ;;
        rangeCaPath certPool dir rest
  end.

Definition buildHTTPSTransport (hcc : httpClientCfg) (gitlabURL : string)
  : IO (option Http.Transport * string * option error) :=
  r <- x509_SystemCertPool ;;
  ' (certPool, err) <-
      match r with
      | Ok pool => ret (pool, None)
      | Err e => (pool <- x509_NewCertPool ;; ret (pool, Some e))
      end ;;
  certPool <-
      (if nonEmpty (caFile hcc) then addCertToPool certPool (caFile hcc)
       else ret certPool) ;;
  certPool <-
      (if nonEmpty (caPath hcc)
       then (' (fis, _) <- os_ReadDir (caPath hcc) ;;
             rangeCaPath certPool (caPath hcc) fis)
       else ret certPool) ;;
  let tlsConfig :=
    {| Http.RootCAs := certPool;
       Http.MinVersion := Http.VersionTLS12;
       Http.Certificates := [] |} in
  if HaveCertAndKey hcc then
    lr <- tls_LoadX509KeyPair (certPath hcc) (keyPath hcc) ;;
    match lr with
    | Err loadErr => ret (None, "", Some loadErr)
    | Ok cert =>
        let tlsConfig :=
          {| Http.RootCAs := Http.RootCAs tlsConfig;
             Http.MinVersion := Http.MinVersion tlsConfig;
             Http.Certificates := [cert] |} in
        ret (Some {| Http.DialContext := None;
                     Http.TLSClientConfig := Some tlsConfig |},
             gitlabURL, err)
    end
  else
    ret (Some {| Http.DialContext := None;
                 Http.TLSClientConfig := Some tlsConfig |},
         gitlabURL, err).

Definition buildHTTPTransport (gitlabURL : string) : Http.Transport * string :=
  (Http.emptyTransport, gitlabURL).

(** [func readTimeout(timeoutSeconds uint64) time.Duration]: the
    conversion [time.Duration(timeoutSeconds)] reinterprets the unsigned
    value as [int64], and the product is an [int64] product. *)
Definition readTimeout (timeoutSeconds : Z) : Time.Duration :=
  let timeoutSeconds :=
    if timeoutSeconds =? 0 then defaultReadTimeoutSeconds else timeoutSeconds in
  Time.mul (Time.int64 timeoutSeconds) Time.Second.

(** The configuration [NewHTTPClientWithOpts] starts from, and the loop
    [for _, opt := range opts { opt(hcc) }]. *)
Definition seedCfg (caFile caPath : string) : httpClientCfg :=
  {| keyPath := "";
     certPath := "";
     caFile := caFile;
     caPath := caPath;
     retryWaitMin := defaultRetryWaitMinimum;
     retryWaitMax := defaultRetryWaitMaximum;
     retryMax := defaultRetryMax |}.

Definition applyOpts (opts : list HTTPClientOpt) (hcc : httpClientCfg)
  : httpClientCfg :=
  fold_left (fun hcc opt => opt hcc) opts hcc.

(** The statements of [NewHTTPClientWithOpts] after the [switch]. *)
Definition assemble (hcc : httpClientCfg) (transport : option Http.Transport)
           (host : string) (readTimeoutSeconds : Z) : HTTPClient :=
  let c := Retryablehttp.NewClient in
  let c := Retryablehttp.setRetryMax (retryMax hcc) c in
  let c := Retryablehttp.setRetryWaitMax (retryWaitMax hcc) c in
  let c := Retryablehttp.setRetryWaitMin (retryWaitMin hcc) c in
  let c := Retryablehttp.setLogger None c in
  let c := Retryablehttp.setTransport (Http.NewTransport transport) c in
  let c := Retryablehttp.setTimeout (readTimeout readTimeoutSeconds) c in
  {| RetryableHTTP := c; Host := host |}.

Definition NewHTTPClientWithOpts
           (gitlabURL gitlabRelativeURLRoot caFile caPath : string)
           (readTimeoutSeconds : Z) (opts : list HTTPClientOpt)
  : IO (option HTTPClient * option error) :=
  let hcc := applyOpts opts (seedCfg caFile caPath) in
  if Strings.HasPrefix gitlabURL unixSocketProtocol then
    let (transport, host) := buildSocketTransport gitlabURL gitlabRelativeURLRoot in
    ret (Some (assemble hcc (Some transport) host readTimeoutSeconds), None)
  else if Strings.HasPrefix gitlabURL httpProtocol then
    let (transport, host) := buildHTTPTransport gitlabURL in
    ret (Some (assemble hcc (Some transport) host readTimeoutSeconds), None)
  else if Strings.HasPrefix gitlabURL httpsProtocol then
    verr <- validateCaFile caFile ;;
    match verr with
    | Some err => ret (None, Some err)
    | None =>
        ' (transport, host, err) <- buildHTTPSTransport hcc gitlabURL ;;
        match err with
        | Some err => ret (None, Some err)
        | None => ret (Some (assemble hcc transport host readTimeoutSeconds), None)
        end
    end
  else ret (None, Some (New "unknown GitLab URL prefix")).

End Client.

(* ===================================================================== *)
(** ** Sample worlds *)

Module Samples.
Import Errors Platform.

(** A directory [/etc/gitlab/ca] with a certificate file, a file that is
    not PEM and a subdirectory; a CA bundle and a client key pair next to
    it.  Every path of the sample is clean already. *)
Definition caDir : string := "/etc/gitlab/ca".
Definition goodPem : string := "/etc/gitlab/ca/good.pem".
Definition badPem : string := "/etc/gitlab/ca/bad.pem".
Definition subDir : string := "/etc/gitlab/ca/sub".
Definition bundle : string := "/etc/gitlab/bundle.pem".
Definition clientCert : string := "/etc/gitlab/client.crt".
Definition clientKey : string := "/etc/gitlab/client.key".
Definition missing : string := "/etc/gitlab/missing.pem".

Definition isOneOf (l : list string) (s : string) : bool :=
  existsb (String.eqb s) l.

Definition sampleStat (name : string) : option error :=
  if isOneOf [caDir; goodPem; badPem; subDir; bundle; clientCert; clientKey] name
  then None
  else Some (PathError "stat" name ENOENT).

Definition sampleReadFile (name : string) : result string :=
  if String.eqb name goodPem then Ok "PEM:good"
  else if String.eqb name badPem then Ok "not a certificate"
  else if String.eqb name bundle then Ok "PEM:bundle"
  else if String.eqb name clientCert then Ok "PEM:client"
  else if String.eqb name clientKey then Ok "KEY:client"
  else if isOneOf [caDir; subDir] name then Err (PathError "read" name EIO)
  else Err (PathError "open" name ENOENT).

Definition sampleReadDir (name : string) : list DirEntry * option error :=
  if String.eqb name caDir
  then ([ {| Name := "bad.pem"; IsDir := false |};
          {| Name := "good.pem"; IsDir := false |};
          {| Name := "sub"; IsDir := true |} ], None)
  else if String.eqb name subDir then ([], None)
  else ([], Some (PathError "open" name ENOENT)).

Definition samplePem (data : string) : list x509_Certificate :=
  if String.eqb data "PEM:good" then ["DER:good"]
  else if String.eqb data "PEM:bundle" then ["DER:bundle"]
  else if String.eqb data "PEM:client" then ["DER:client"]
  else [].

Definition sampleKeyPair (certFile keyFile : string) : result tls_Certificate :=
  if String.eqb certFile clientCert && String.eqb keyFile clientKey
  then Ok {| Chain := ["DER:client"]; PrivateKey := "KEY:client" |}
  else Err (opaqueError "tls: failed to find any PEM data in certificate input").

Definition sampleWorld : World :=
  {| stat := sampleStat;
     readFile := sampleReadFile;
     readDir := sampleReadDir;
     systemCertPool := Ok ["DER:root1"; "DER:root2"];
     loadX509KeyPair := sampleKeyPair;
     pemCertificates := samplePem;
     clean := fun path => path |}.

(** The same machine without a system certificate pool. *)
Definition noSystemPool : error :=
  opaqueError "crypto/x509: system root pool is not available".

Definition sampleWorldNoPool : World :=
  {| stat := sampleStat;
     readFile := sampleReadFile;
     readDir := sampleReadDir;
     systemCertPool := Err noSystemPool;
     loadX509KeyPair := sampleKeyPair;
     pemCertificates := samplePem;
     clean := fun path => path |}.

Definition someCtx : Http.Context := Http.ctxHandle 7.

End Samples.

(* ===================================================================== *)
(** ** What the specification calls last-writer-wins *)

Module Resolver.
Import Client.

(** The two kinds of option the package offers. *)
Inductive optKind :=
| ClientCert (certPath keyPath : string)
| RetryOpts (waitMin waitMax : Time.Duration) (maxAttempts : Z).

Definition optOf (k : optKind) : HTTPClientOpt :=
  match k with
  | ClientCert c k => WithClientCert c k
  | RetryOpts a b n => WithHTTPRetryOpts a b n
  end.

(** The retry values written last in a list of options, [d] when none of
    them writes any. *)
Fixpoint lastRetry (ks : list optKind) (d : Time.Duration * Time.Duration * Z)
  : Time.Duration * Time.Duration * Z :=
  match ks with
  | [] => d
  | RetryOpts a b n :: rest => lastRetry rest (a, b, n)
  | ClientCert _ _ :: rest => lastRetry rest d
  end.

(** The certificate and key paths written last. *)
Fixpoint lastCert (ks : list optKind) (d : string * string) : string * string :=
  match ks with
  | [] => d
  | ClientCert c k :: rest => lastCert rest (c, k)
  | RetryOpts _ _ _ :: rest => lastCert rest d
  end.

Definition retryOf (hcc : httpClientCfg) : Time.Duration * Time.Duration * Z :=
  (retryWaitMin hcc, retryWaitMax hcc, retryMax hcc).

Definition certOf (hcc : httpClientCfg) : string * string :=
  (certPath hcc, keyPath hcc).

(** The retry policy of a constructed client. *)
Definition retryPolicy (c : HTTPClient) : Time.Duration * Time.Duration * Z :=
  (Retryablehttp.RetryWaitMin (RetryableHTTP c),
   Retryablehttp.RetryWaitMax (RetryableHTTP c),
   Retryablehttp.RetryMax (RetryableHTTP c)).

(** The transport installed in a constructed client, and its timeout. *)
Definition installed (c : HTTPClient) : Http.RoundTripper :=
  Http.ClientTransport (Retryablehttp.HTTPClient (RetryableHTTP c)).

Definition timeoutOf (c : HTTPClient) : Time.Duration :=
  Http.Timeout (Retryablehttp.HTTPClient (RetryableHTTP c)).

End Resolver.

(* ===================================================================== *)
(** ** The trust pool, told without the plumbing *)

Module Trust.
Import Errors Platform Client.

(** The certificates one file contributes: those its PEM data decodes to,
    none when the file cannot be read. *)
Definition fileCerts (w : World) (name : string) : list x509_Certificate :=
  match readFile w (clean w name) with
  | Ok data => pemCertificates w data
  | Err _ => []
  end.

(** The path [filepath.Join] makes of a directory and an entry name. *)
Definition joined (w : World) (dir name : string) : string :=
  fst (filepath_Join dir name w).

(** The certificates one directory entry contributes: none for a
    directory. *)
Definition entryCerts (w : World) (dir : string) (fi : DirEntry)
  : list x509_Certificate :=
  if IsDir fi then [] else fileCerts w (joined w dir (Name fi)).

Definition addAll (pool : CertPool) (certs : list x509_Certificate) : CertPool :=
  fold_left AddCert certs pool.

(** The pool the trust assembly starts from. *)
Definition startPool (w : World) : CertPool :=
  match systemCertPool w with
  | Ok pool => pool
  | Err _ => []
  end.

(** The pool after the CA file, before the CA directory. *)
Definition poolAfterCaFile (w : World) (caFile : string) : CertPool :=
  if nonEmpty caFile then addAll (startPool w) (fileCerts w caFile)
  else startPool w.

Definition trustPool (w : World) (caFile caPath : string) : CertPool :=
  if nonEmpty caPath
  then fold_left (fun pool fi => addAll pool (entryCerts w caPath fi))
                 (fst (readDir w caPath)) (poolAfterCaFile w caFile)
  else poolAfterCaFile w caFile.

(** The error of [x509.SystemCertPool], if any. *)
Definition systemPoolError (w : World) : option error :=
  match systemCertPool w with
  | Ok _ => None
  | Err e => Some e
  end.

(** A directory entry the scan passes over: a directory, a file that
    cannot be read, or a file no certificate decodes from. *)
Definition passedOver (w : World) (dir : string) (fi : DirEntry) : Prop :=
  IsDir fi = true \/
  (exists e, readFile w (clean w (joined w dir (Name fi))) = Err e) \/
  (exists data, readFile w (clean w (joined w dir (Name fi))) = Ok data /\
                pemCertificates w data = []).

Definition isLoad (ev : Event) : bool :=
  match ev with
  | EvLoadX509KeyPair _ _ => true
  | _ => false
  end.

(** The TLS transport around a pool and a list of client certificates. *)
Definition tlsTransport (pool : CertPool) (certs : list tls_Certificate)
  : Http.Transport :=
  {| Http.DialContext := None;
     Http.TLSClientConfig :=
       Some {| Http.RootCAs := pool;
               Http.MinVersion := Http.VersionTLS12;
               Http.Certificates := certs |} |}.

End Trust.

(* ===================================================================== *)
(** ** What the TLS builder reads, in order *)

Module Reads.
Import Errors Platform Client Trust.

Definition isFile (fi : DirEntry) : bool := negb (IsDir fi).

(** Asking for the system pool, and making an empty one when there is
    none. *)
Definition poolEvents (w : World) : list Event :=
  match systemCertPool w with
  | Ok _ => [EvSystemCertPool]
  | Err _ => [EvSystemCertPool; EvNewCertPool]
  end.

Definition caFileEvents (w : World) (caFile : string) : list Event :=
  if nonEmpty caFile then [EvReadFile (clean w caFile)] else [].

(** One listing of the directory, then one read for each entry that is not
    a directory, in the order of the listing. *)
Definition caPathEvents (w : World) (caPath : string) : list Event :=
  if nonEmpty caPath
  then EvReadDir caPath
       :: map (fun fi => EvReadFile (clean w (joined w caPath (Name fi))))
              (filter isFile (fst (readDir w caPath)))
  else [].

Definition keyPairEvents (hcc : httpClientCfg) : list Event :=
  if HaveCertAndKey hcc
  then [EvLoadX509KeyPair (certPath hcc) (keyPath hcc)]
  else [].

Definition buildEvents (w : World) (hcc : httpClientCfg) : list Event :=
  (poolEvents w ++ caFileEvents w (caFile hcc) ++ caPathEvents w (caPath hcc)
     ++ keyPairEvents hcc)%list.

Definition isStat (ev : Event) : bool :=
  match ev with
  | EvStat _ => true
  | _ => false
  end.

End Reads.

(* ===================================================================== *)
(** ** Go's [unicode/utf8] and [unicode], as far as [strings.Fields] goes *)

Module Unicode.

Definition byte (c : ascii) : Z := Z.of_N (N_of_ascii c).

Definition RuneError : Z := 65533.

Definition inRange (lo hi b : Z) : bool := (lo <=? b) && (b <=? hi).

(** The second byte a leading byte accepts: [acceptRanges] of the
    package. *)
Definition acceptRange (s0 : Z) : Z * Z :=
  if s0 =? 224 then (160, 191)
  else if s0 =? 237 then (128, 159)
  else if s0 =? 240 then (144, 191)
  else if s0 =? 244 then (128, 143)
  else (128, 191).

(** [utf8.DecodeRuneInString(s)]: the first rune of [s] and its width in
    bytes; [(RuneError, 1)] for a byte that starts no valid encoding,
    [(RuneError, 0)] for the empty string. *)
Definition decodeRune (s : string) : Z * nat :=
  match s with
  | EmptyString => (RuneError, 0%nat)
  | String c0 rest0 =>
      let s0 := byte c0 in
      if s0 <? 128 then (s0, 1%nat)
      else if (s0 <? 194) || (244 <? s0) then (RuneError, 1%nat)
      else
        let (lo, hi) := acceptRange s0 in
        match rest0 with
        | EmptyString => (RuneError, 1%nat)
        | String c1 rest1 =>
            let s1 := byte c1 in
            if negb (inRange lo hi s1) then (RuneError, 1%nat)
            else if s0 <? 224
            then (Z.lor (Z.shiftl (Z.land s0 31) 6) (Z.land s1 63), 2%nat)
            else
              match rest1 with
              | EmptyString => (RuneError, 1%nat)
              | String c2 rest2 =>
                  let s2 := byte c2 in
                  if negb (inRange 128 191 s2) then (RuneError, 1%nat)
                  else if s0 <? 240
                  then (Z.lor (Z.lor (Z.shiftl (Z.land s0 15) 12)
                                     (Z.shiftl (Z.land s1 63) 6))
                              (Z.land s2 63), 3%nat)
                  else
                    match rest2 with
                    | EmptyString => (RuneError, 1%nat)
                    | String c3 _ =>
                        let s3 := byte c3 in
                        if negb (inRange 128 191 s3) then (RuneError, 1%nat)
                        else (Z.lor (Z.lor (Z.lor (Z.shiftl (Z.land s0 7) 18)
                                                  (Z.shiftl (Z.land s1 63) 12))
                                           (Z.shiftl (Z.land s2 63) 6))
                                    (Z.land s3 63), 4%nat)
                    end
              end
        end
  end.

(** [unicode.IsSpace(r)]: the Latin-1 white space, then the [White_Space]
    table. *)
Definition IsSpace (r : Z) : bool :=
  if r <=? 255
  then (r =? 9) || (r =? 10) || (r =? 11) || (r =? 12) || (r =? 13)
       || (r =? 32) || (r =? 133) || (r =? 160)
  else (r =? 5760) || inRange 8192 8202 r || inRange 8232 8233 r
       || (r =? 8239) || (r =? 8287) || (r =? 12288).

(** The ASCII white space: tab, line feed, vertical tab, form feed,
    carriage return, space. *)
Definition isAsciiSpace (c : ascii) : bool :=
  let b := byte c in
  (b =? 9) || (b =? 10) || (b =? 11) || (b =? 12) || (b =? 13) || (b =? 32).

Definition isAscii (c : ascii) : bool := byte c <? 128.

Fixpoint allBytes (p : ascii -> bool) (s : string) : bool :=
  match s with
  | EmptyString => true
  | String c s' => p c && allBytes p s'
  end.

(** A byte that is ASCII and no white space. *)
Definition isToken (c : ascii) : bool := isAscii c && negb (isAsciiSpace c).

End Unicode.

(* ===================================================================== *)
(** ** [strings.Fields] *)

Module Fields.
Import Unicode.

(** The loop of [strings.FieldsFunc(s, unicode.IsSpace)] over the runes of
    [s], byte by byte: [skip] counts the bytes left of the rune decoded
    last and [space] tells whether that rune is white space; [cur] is the
    field being read, [None] between fields.  A field ends at the first
    byte of a white-space rune, the last one at the end of the string.
    On a string of ASCII bytes the fast path of [strings.Fields] computes
    the same fields. *)
Fixpoint fieldsLoop (s : string) (skip : nat) (space : bool) (cur : option string)
  : list string :=
  match s with
  | EmptyString =>
      match cur with
      | Some field => [field]
      | None => []
      end
  | String c s' =>
      let '(space, skip) :=
        match skip with
        | S k => (space, k)
        | O => let (r, width) := decodeRune s in (IsSpace r, Nat.pred width)
        end in
      if space then
        match cur with
        | Some field => field :: fieldsLoop s' skip space None
        | None => fieldsLoop s' skip space None
        end
      else
        match cur with
        | Some field => fieldsLoop s' skip space (Some (field ++ String c EmptyString))
        | None => fieldsLoop s' skip space (Some (String c EmptyString))
        end
  end.

(** [strings.Fields(s)] *)
Definition Fields (s : string) : list string := fieldsLoop s 0 false None.

(** The first [k] bytes of [s] are not ASCII: what holds of the bytes that
    follow the first byte of a rune of several bytes. *)
Fixpoint continues (k : nat) (s : string) : bool :=
  match k, s with
  | O, _ => true
  | S _, EmptyString => true
  | S k', String c s' => negb (isAscii c) && continues k' s'
  end.

(** A string without ASCII white space. *)
Definition spaceless (s : string) : bool :=
  allBytes (fun c => negb (isAsciiSpace c)) s.

(** A field is not empty and holds no ASCII white space. *)
Definition fieldOk (field : string) : Prop := field <> "" /\ spaceless field = true.

End Fields.

(* ===================================================================== *)
(** ** Package [sshenv] *)

Module Sshenv.

(** The environment of the process: the value of a variable that is set. *)
Definition Environ := string -> option string.

(** [os.Getenv(key)]: the empty string for a variable that is not set. *)
Definition os_Getenv (env : Environ) (key : string) : string :=
  match env key with
  | Some v => v
  | None => ""
  end.

Definition GitProtocolEnv : string := "GIT_PROTOCOL".
Definition SSHConnectionEnv : string := "SSH_CONNECTION".
Definition SSHOriginalCommandEnv : string := "SSH_ORIGINAL_COMMAND".

Record Env := {
  GitProtocolVersion : string;
  IsSSHConnection : bool;
  OriginalCommand : string;
  RemoteAddr : string;
  NamespacePath : string
}.

(** A call returns, or panics with a run-time error. *)
Inductive outcome (A : Type) :=
| Returns (a : A)
| Panics (msg : string).
Arguments Returns {A} a.
Arguments Panics {A} msg.

(** [strings.Fields(address)[0]]: indexing an empty slice panics. *)
Definition remoteAddrFromEnv (env : Environ) : outcome string :=
  let address := os_Getenv env SSHConnectionEnv in
  if negb (String.eqb address "") then
    match Fields.Fields address with
    | field :: _ => Returns field
    | [] => Panics "runtime error: index out of range [0] with length 0"
    end
  else Returns "".

Definition NewFromEnv (env : Environ) : outcome Env :=
  let isSSHConnection := false in
  let isSSHConnection :=
    if negb (String.eqb (os_Getenv env SSHConnectionEnv) "") then true
    else isSSHConnection in
  match remoteAddrFromEnv env with
  | Panics msg => Panics msg
  | Returns addr =>
      Returns {| GitProtocolVersion := os_Getenv env GitProtocolEnv;
                 IsSSHConnection := isSSHConnection;
                 RemoteAddr := addr;
                 OriginalCommand := os_Getenv env SSHOriginalCommandEnv;
                 NamespacePath := "" |}
  end.

(** An environment that sets [SSH_CONNECTION] to [v], and the variables a
    session under [sshd] has. *)
Definition withConnection (v : string) : Environ :=
  fun key =>
    if String.eqb key SSHConnectionEnv then Some v
    else if String.eqb key GitProtocolEnv then Some "version=2"
    else if String.eqb key SSHOriginalCommandEnv then Some "git-upload-pack 'group/project.git'"
    else None.

End Sshenv.

(* ===================================================================== *)
(** ** More sample worlds *)

Module MoreSamples.
Import Errors Platform.

Definition locked : string := "/etc/gitlab/locked/ca.pem".

(** The sample machine with a CA file in a directory that may not be
    searched. *)
Definition lockedWorld : World :=
  {| stat := fun name =>
               if String.eqb name locked
               then Some (PathError "stat" name EACCES)
               else Samples.sampleStat name;
     readFile := Samples.sampleReadFile;
     readDir := Samples.sampleReadDir;
     systemCertPool := Ok ["DER:root1"; "DER:root2"];
     loadX509KeyPair := Samples.sampleKeyPair;
     pemCertificates := Samples.samplePem;
     clean := fun path => path |}.

End MoreSamples.

(* ===================================================================== *)
(** ** A path below a regular file *)

Module NestedSample.
Import Errors Platform.

(** A path whose parent, the CA bundle of the sample machine, is a regular
    file: nothing exists there, and the system answers [ENOTDIR], not
    [ENOENT]. *)
Definition nested : string := "/etc/gitlab/bundle.pem/ca.pem".

Definition nestedWorld : World :=
  {| stat := fun name =>
               if String.eqb name nested
               then Some (PathError "stat" name ENOTDIR)
               else Samples.sampleStat name;
     readFile := fun name =>
               if String.eqb name nested
               then Err (PathError "open" name ENOTDIR)
               else Samples.sampleReadFile name;
     readDir := fun name =>
               if String.eqb name nested
               then ([], Some (PathError "open" name ENOTDIR))
               else Samples.sampleReadDir name;
     systemCertPool := Ok ["DER:root1"; "DER:root2"];
     loadX509KeyPair := Samples.sampleKeyPair;
     pemCertificates := Samples.samplePem;
     clean := fun path => path |}.

End NestedSample.

Import Errors Platform Client Resolver Trust.

(* ===================================================================== *)
(** ** Strings *)

Section StringFacts.

Lemma HasPrefix_app (pre rest : string) :
  Strings.HasPrefix (pre ++ rest) pre = true.
Proof.
  induction pre as [|c pre IH]; simpl; [reflexivity|].
  now rewrite Ascii.eqb_refl.
Qed.

Lemma HasPrefix_split (s pre : string) :
  Strings.HasPrefix s pre = true ->
  s = pre ++ Strings.drop (String.length pre) s.
Proof.
  revert s; induction pre as [|p pre IH]; intros s H; simpl in *.
  - reflexivity.
  - destruct s as [|c s]; [discriminate|].
    apply andb_true_iff in H as [Hc Hs].
    apply Ascii.eqb_eq in Hc; subst c.
    simpl. f_equal. now apply IH.
Qed.

Lemma TrimPrefix_app (pre rest : string) :
  Strings.TrimPrefix (pre ++ rest) pre = rest.
Proof.
  unfold Strings.TrimPrefix. rewrite HasPrefix_app.
  induction pre as [|c pre IH]; simpl; auto.
Qed.

Lemma TrimPrefix_split (s pre : string) :
  Strings.HasPrefix s pre = true -> s = pre ++ Strings.TrimPrefix s pre.
Proof.
  intros H. unfold Strings.TrimPrefix. rewrite H. now apply HasPrefix_split.
Qed.

(** The three scheme prefixes exclude one another. *)
Lemma https_not_unix (url : string) :
  Strings.HasPrefix url httpsProtocol = true ->
  Strings.HasPrefix url unixSocketProtocol = false.
Proof. intros H; apply HasPrefix_split in H; rewrite H; reflexivity. Qed.

Lemma https_not_http (url : string) :
  Strings.HasPrefix url httpsProtocol = true ->
  Strings.HasPrefix url httpProtocol = false.
Proof. intros H; apply HasPrefix_split in H; rewrite H; reflexivity. Qed.

Lemma http_not_unix (url : string) :
  Strings.HasPrefix url httpProtocol = true ->
  Strings.HasPrefix url unixSocketProtocol = false.
Proof. intros H; apply HasPrefix_split in H; rewrite H; reflexivity. Qed.

Lemma eqb_empty_false (s : string) : s <> "" -> String.eqb s "" = false.
Proof. intros H; now apply String.eqb_neq. Qed.

Lemma nonEmpty_true (s : string) : nonEmpty s = true <-> s <> "".
Proof.
  unfold nonEmpty. rewrite negb_true_iff. apply String.eqb_neq.
Qed.

Lemma nonEmpty_false (s : string) : nonEmpty s = false <-> s = "".
Proof.
  unfold nonEmpty. rewrite negb_false_iff. apply String.eqb_eq.
Qed.

(** [trimRight] removes a run of cutset bytes from the right end, and
    nothing else. *)
Lemma trimRight_split (s cutset : string) :
  exists b, s = Strings.trimRight s cutset ++ b /\ Strings.allIn cutset b = true.
Proof.
  induction s as [|c s [b [Hs Hb]]]; simpl.
  - exists ""; auto.
  - destruct (Strings.trimRight s cutset) as [|d r] eqn:E.
    + destruct (Strings.inCutset cutset c) eqn:Hc.
      * exists (String c b). simpl in Hs. subst b. split; [reflexivity|].
        simpl. now rewrite Hc, Hb.
      * exists b. simpl in *. now subst b.
    + exists b. split; [|assumption]. simpl. now rewrite Hs at 1.
Qed.

Lemma trimRight_last (s cutset : string) (c : ascii) :
  Strings.last (Strings.trimRight s cutset) = Some c ->
  Strings.inCutset cutset c = false.
Proof.
  induction s as [|a s IH]; simpl; [discriminate|].
  destruct (Strings.trimRight s cutset) as [|d r] eqn:E.
  - destruct (Strings.inCutset cutset a) eqn:Ha; simpl; [discriminate|].
    now intros [= <-].
  - intros H. apply IH. exact H.
Qed.

Lemma trimLeft_split (s cutset : string) :
  exists a, s = a ++ Strings.trimLeft s cutset /\ Strings.allIn cutset a = true.
Proof.
  induction s as [|c s [a [Hs Ha]]]; simpl.
  - exists ""; auto.
  - destruct (Strings.inCutset cutset c) eqn:Hc.
    + exists (String c a). simpl. rewrite Hc, Ha. split; [|reflexivity].
      now rewrite Hs at 1.
    + exists "". auto.
Qed.

Lemma trimLeft_first (s cutset : string) (c : ascii) :
  Strings.first (Strings.trimLeft s cutset) = Some c ->
  Strings.inCutset cutset c = false.
Proof.
  induction s as [|a s IH]; simpl; [discriminate|].
  destruct (Strings.inCutset cutset a) eqn:Ha; [exact IH|].
  simpl. now intros [= <-].
Qed.

Lemma last_cons (a : ascii) (s : string) :
  s <> "" -> Strings.last (String a s) = Strings.last s.
Proof. destruct s; [congruence|reflexivity]. Qed.

Lemma trimLeft_last (s cutset : string) :
  Strings.trimLeft s cutset <> "" ->
  Strings.last (Strings.trimLeft s cutset) = Strings.last s.
Proof.
  induction s as [|a s IH]; simpl; [congruence|].
  destruct (Strings.inCutset cutset a) eqn:Ha; [|reflexivity].
  intros H. rewrite (IH H). symmetry. apply last_cons.
  intros ->. now apply H.
Qed.

(** [Trim] removes cutset bytes at both ends and leaves a string that
    neither starts nor ends with one. *)
Lemma Trim_spec (s cutset : string) :
  (exists a b,
      s = a ++ Strings.Trim s cutset ++ b /\
      Strings.allIn cutset a = true /\ Strings.allIn cutset b = true) /\
  (forall c, Strings.first (Strings.Trim s cutset) = Some c ->
             Strings.inCutset cutset c = false) /\
  (forall c, Strings.last (Strings.Trim s cutset) = Some c ->
             Strings.inCutset cutset c = false).
Proof.
  unfold Strings.Trim. split; [|split].
  - destruct (trimRight_split s cutset) as [b [Hb Hb']].
    destruct (trimLeft_split (Strings.trimRight s cutset) cutset) as [a [Ha Ha']].
    exists a, b. split; [|auto].
    rewrite Hb at 1. rewrite Ha at 1.
    clear. induction a; simpl; congruence.
  - intros c. apply trimLeft_first.
  - intros c H.
    destruct (Strings.trimLeft (Strings.trimRight s cutset) cutset) eqn:E;
      [discriminate|].
    rewrite <- E in H. rewrite trimLeft_last in H by (rewrite E; discriminate).
    now apply trimRight_last in H.
Qed.

End StringFacts.

(* ===================================================================== *)
(** ** The three branches of [NewHTTPClientWithOpts] *)

Section Dispatch.

Variable w : World.
Variables gitlabURL gitlabRelativeURLRoot caFile caPath : string.
Variable readTimeoutSeconds : Z.
Variable opts : list HTTPClientOpt.

Local Abbreviation hcc := (applyOpts opts (seedCfg caFile caPath)).
Local Abbreviation run :=
  (NewHTTPClientWithOpts gitlabURL gitlabRelativeURLRoot caFile caPath
                         readTimeoutSeconds opts w).

Lemma dispatch_unix :
  Strings.HasPrefix gitlabURL unixSocketProtocol = true ->
  run = (Some (assemble hcc
                 (Some (fst (buildSocketTransport gitlabURL gitlabRelativeURLRoot)))
                 (snd (buildSocketTransport gitlabURL gitlabRelativeURLRoot))
                 readTimeoutSeconds),
         None, []).
Proof.
  intros H. unfold NewHTTPClientWithOpts. rewrite H. reflexivity.
Qed.

Lemma dispatch_http :
  Strings.HasPrefix gitlabURL httpProtocol = true ->
  run = (Some (assemble hcc (Some Http.emptyTransport) gitlabURL readTimeoutSeconds),
         None, []).
Proof.
  intros H. unfold NewHTTPClientWithOpts.
  rewrite (http_not_unix _ H), H. reflexivity.
Qed.

Lemma dispatch_https :
  Strings.HasPrefix gitlabURL httpsProtocol = true ->
  run =
  bind (validateCaFile caFile) (fun verr =>
    match verr with
    | Some err => ret (None, Some err)
    | None =>
        bind (buildHTTPSTransport hcc gitlabURL) (fun r =>
          match r with
          | (transport, host, Some err) => ret (None, Some err)
          | (transport, host, None) =>
              ret (Some (assemble hcc transport host readTimeoutSeconds), None)
          end)
    end) w.
Proof.
  intros H. unfold NewHTTPClientWithOpts.
  rewrite (https_not_unix _ H), (https_not_http _ H), H.
  unfold bind. destruct (validateCaFile caFile w) as [[e|] t]; [reflexivity|].
  destruct (buildHTTPSTransport _ gitlabURL w) as [[[tr host] [e|]] t'];
    reflexivity.
Qed.

Lemma dispatch_unknown :
  Strings.HasPrefix gitlabURL unixSocketProtocol = false ->
  Strings.HasPrefix gitlabURL httpProtocol = false ->
  Strings.HasPrefix gitlabURL httpsProtocol = false ->
  run = (None, Some (New "unknown GitLab URL prefix"), []).
Proof.
  intros H1 H2 H3. unfold NewHTTPClientWithOpts.
  rewrite H1, H2, H3. reflexivity.
Qed.

(** A client is returned without an error, and it is the assembly of the
    resolved configuration around some transport and host. *)
Lemma returned_client (c : HTTPClient) :
  fst (fst run) = Some c ->
  snd (fst run) = None /\
  exists transport host, c = assemble hcc transport host readTimeoutSeconds.
Proof.
  destruct (Strings.HasPrefix gitlabURL unixSocketProtocol) eqn:Hu.
  { rewrite (dispatch_unix Hu). simpl. intros [= <-]. eauto. }
  destruct (Strings.HasPrefix gitlabURL httpProtocol) eqn:Hh.
  { rewrite (dispatch_http Hh). simpl. intros [= <-]. eauto. }
  destruct (Strings.HasPrefix gitlabURL httpsProtocol) eqn:Hs.
  2:{ rewrite (dispatch_unknown Hu Hh Hs). simpl. discriminate. }
  rewrite (dispatch_https Hs). unfold bind.
  destruct (validateCaFile caFile w) as [[e|] t]; simpl; [discriminate|].
  destruct (buildHTTPSTransport _ gitlabURL w) as [[[tr host] [e|]] t'];
    simpl; [discriminate|].
  intros [= <-]. eauto.
Qed.

(** On the TLS branch the host of a returned client is the one
    [buildHTTPSTransport] returned, and so is the transport. *)
Lemma returned_client_https (c : HTTPClient) :
  Strings.HasPrefix gitlabURL httpsProtocol = true ->
  fst (fst run) = Some c ->
  exists transport host,
    fst (buildHTTPSTransport hcc gitlabURL w) = (transport, host, None) /\
    c = assemble hcc transport host readTimeoutSeconds.
Proof.
  intros Hs. rewrite (dispatch_https Hs). unfold bind.
  destruct (validateCaFile caFile w) as [[e|] t]; simpl; [discriminate|].
  destruct (buildHTTPSTransport _ gitlabURL w) as [[[tr host] [e|]] t'];
    simpl; [discriminate|].
  intros [= <-]. eauto.
Qed.

End Dispatch.

(* ===================================================================== *)
(** ** [buildHTTPSTransport], step by step *)

Section BuildHTTPS.

Variable w : World.

Lemma addCertToPool_result (pool : CertPool) (name : string) :
  fst (addCertToPool pool name w) = addAll pool (fileCerts w name).
Proof.
  unfold addCertToPool, bind, filepath_Clean, os_ReadFile, fileCerts. simpl.
  destruct (readFile w (clean w name)); reflexivity.
Qed.

Lemma addCertToPool_trace (pool : CertPool) (name : string) :
  snd (addCertToPool pool name w) = [EvReadFile (clean w name)].
Proof.
  unfold addCertToPool, bind, filepath_Clean, os_ReadFile. simpl.
  destruct (readFile w (clean w name)); reflexivity.
Qed.

Lemma rangeCaPath_result (dir : string) (fis : list DirEntry) (pool : CertPool) :
  fst (rangeCaPath pool dir fis w) =
  fold_left (fun pool fi => addAll pool (entryCerts w dir fi)) fis pool.
Proof.
  revert pool; induction fis as [|fi rest IH]; intros pool; simpl.
  - reflexivity.
  - unfold entryCerts at 2. destruct (IsDir fi); simpl.
    + apply IH.
    + unfold bind.
      destruct (filepath_Join dir (Name fi) w) as [name t0] eqn:Ej.
      pose proof (addCertToPool_result pool name) as Ha.
      destruct (addCertToPool pool name w) as [pool' t1]. simpl in Ha.
      specialize (IH pool').
      destruct (rangeCaPath pool' dir rest w) as [pool'' t2]. simpl in *.
      unfold joined. rewrite Ej. simpl. now rewrite <- Ha.
Qed.

Lemma rangeCaPath_no_load (dir : string) (fis : list DirEntry) (pool : CertPool) :
  existsb isLoad (snd (rangeCaPath pool dir fis w)) = false.
Proof.
  revert pool; induction fis as [|fi rest IH]; intros pool; simpl.
  - reflexivity.
  - destruct (IsDir fi); [apply IH|].
    unfold bind.
    destruct (filepath_Join dir (Name fi) w) as [name t0] eqn:Ej.
    assert (t0 = []) as ->.
    { unfold filepath_Join, filepath_Clean, ret in Ej.
      destruct (String.eqb dir ""); [destruct (String.eqb (Name fi) "")|];
        now inversion Ej. }
    pose proof (addCertToPool_trace pool name) as Ht.
    destruct (addCertToPool pool name w) as [pool' t1]. simpl in Ht. subst t1.
    specialize (IH pool').
    destruct (rangeCaPath pool' dir rest w) as [pool'' t2]. simpl in *.
    exact IH.
Qed.

(** What [buildHTTPSTransport] returns: the transport around the trust
    pool, the URL and the error of the system pool, unless the key pair
    is asked for and fails to load. *)
Lemma buildHTTPSTransport_result (hcc : httpClientCfg) (gitlabURL : string) :
  fst (buildHTTPSTransport hcc gitlabURL w) =
  (if HaveCertAndKey hcc then
     match loadX509KeyPair w (certPath hcc) (keyPath hcc) with
     | Err loadErr => (None, "", Some loadErr)
     | Ok cert =>
         (Some (tlsTransport (trustPool w (caFile hcc) (caPath hcc)) [cert]),
          gitlabURL, systemPoolError w)
     end
   else (Some (tlsTransport (trustPool w (caFile hcc) (caPath hcc)) []),
         gitlabURL, systemPoolError w)).
Proof.
  unfold buildHTTPSTransport, trustPool, poolAfterCaFile, systemPoolError, startPool.
  unfold bind, x509_SystemCertPool, x509_NewCertPool, tls_LoadX509KeyPair,
    os_ReadDir, ret.
  destruct (systemCertPool w) as [sys|e];
    destruct (nonEmpty (caFile hcc));
    destruct (nonEmpty (caPath hcc));
    try destruct (readDir w (caPath hcc)) as [fis derr];
    repeat match goal with
      | |- context [addCertToPool ?p ?n w] =>
          let H := fresh "H" in
          pose proof (addCertToPool_result p n) as H;
          destruct (addCertToPool p n w); simpl in H; subst
      | |- context [rangeCaPath ?p ?d ?f w] =>
          let H := fresh "H" in
          pose proof (rangeCaPath_result d f p) as H;
          destruct (rangeCaPath p d f w); simpl in H; subst
      end;
    destruct (HaveCertAndKey hcc);
    try destruct (loadX509KeyPair w (certPath hcc) (keyPath hcc));
    reflexivity.
Qed.

(** The key pair is loaded exactly when both paths are set. *)
Lemma buildHTTPSTransport_load (hcc : httpClientCfg) (gitlabURL : string) :
  existsb isLoad (snd (buildHTTPSTransport hcc gitlabURL w)) = HaveCertAndKey hcc.
Proof.
  unfold buildHTTPSTransport.
  unfold bind, x509_SystemCertPool, x509_NewCertPool, tls_LoadX509KeyPair,
    os_ReadDir, ret.
  destruct (systemCertPool w) as [sys|e];
    destruct (nonEmpty (caFile hcc));
    destruct (nonEmpty (caPath hcc));
    try destruct (readDir w (caPath hcc)) as [fis derr];
    repeat match goal with
      | |- context [addCertToPool ?p ?n w] =>
          let H := fresh "H" in
          pose proof (addCertToPool_trace p n) as H;
          destruct (addCertToPool p n w); simpl in H; subst
      | |- context [rangeCaPath ?p ?d ?f w] =>
          let H := fresh "H" in
          pose proof (rangeCaPath_no_load d f p) as H;
          destruct (rangeCaPath p d f w); simpl in H
      end;
    destruct (HaveCertAndKey hcc);
    try destruct (loadX509KeyPair w (certPath hcc) (keyPath hcc));
    simpl; repeat rewrite existsb_app; simpl;
    repeat match goal with H : existsb isLoad _ = false |- _ => rewrite H end;
    reflexivity.
Qed.

End BuildHTTPS.

(* ===================================================================== *)
(** ** Arithmetic of [readTimeout] *)

Lemma int64_small (z : Z) :
  - 2 ^ 63 <= z < 2 ^ 63 -> Time.int64 z = z.
Proof.
  intros H. unfold Time.int64.
  change (2 ^ 63) with 9223372036854775808 in *.
  change (2 ^ 64) with 18446744073709551616.
  rewrite Z.mod_small by lia. lia.
Qed.

Lemma readTimeout_in_range (n : Z) :
  0 <= n <= 9223372036 ->
  readTimeout n = Time.seconds (if n =? 0 then 300 else n).
Proof.
  intros H. unfold readTimeout, defaultReadTimeoutSeconds, Time.mul, Time.Second,
    Time.seconds.
  destruct (Z.eqb_spec n 0) as [->|Hn]; [reflexivity|].
  rewrite (int64_small n) by (change (2 ^ 63) with 9223372036854775808; lia).
  apply int64_small. change (2 ^ 63) with 9223372036854775808. lia.
Qed.

(* ===================================================================== *)
(** ** The option mechanism *)

Lemma applyOpts_app (opts1 opts2 : list HTTPClientOpt) (hcc : httpClientCfg) :
  applyOpts (opts1 ++ opts2)%list hcc = applyOpts opts2 (applyOpts opts1 hcc).
Proof. unfold applyOpts. apply fold_left_app. Qed.

Lemma applyOpts_lastRetry (ks : list optKind) (hcc : httpClientCfg) :
  retryOf (applyOpts (map optOf ks) hcc) = lastRetry ks (retryOf hcc).
Proof.
  revert hcc; induction ks as [|[c k|a b n] ks IH]; intros hcc; simpl.
  - reflexivity.
  - rewrite IH. reflexivity.
  - rewrite IH. reflexivity.
Qed.

Lemma applyOpts_lastCert (ks : list optKind) (hcc : httpClientCfg) :
  certOf (applyOpts (map optOf ks) hcc) = lastCert ks (certOf hcc).
Proof.
  revert hcc; induction ks as [|[c k|a b n] ks IH]; intros hcc; simpl.
  - reflexivity.
  - rewrite IH. reflexivity.
  - rewrite IH. reflexivity.
Qed.

Lemma applyOpts_ca (ks : list optKind) (hcc : httpClientCfg) :
  caFile (applyOpts (map optOf ks) hcc) = caFile hcc /\
  caPath (applyOpts (map optOf ks) hcc) = caPath hcc.
Proof.
  revert hcc; induction ks as [|[c k|a b n] ks IH]; intros hcc; simpl.
  - auto.
  - destruct (IH (WithClientCert c k hcc)) as [-> ->]. auto.
  - destruct (IH (WithHTTPRetryOpts a b n hcc)) as [-> ->]. auto.
Qed.

Lemma assemble_retryPolicy hcc transport host rt :
  retryPolicy (assemble hcc transport host rt) = retryOf hcc.
Proof. reflexivity. Qed.

(* ===================================================================== *)
(** ** The socket and plain strategies *)

(** C3: for a URL that begins with [http+unix://] construction returns a
    client whose transport is the one [buildSocketTransport] built; its
    dialer, whatever network and address it is called with, dials network
    [unix] at the path that remains of the URL once the prefix is
    stripped, with the context it was called with. *)
Theorem socket_dialer_ignores_arguments
        (w : World) (gitlabURL root caFile caPath : string) (rt : Z)
        (opts : list HTTPClientOpt) :
  Strings.HasPrefix gitlabURL unixSocketProtocol = true ->
  exists c transport dial,
    NewHTTPClientWithOpts gitlabURL root caFile caPath rt opts w
      = (Some c, None, []) /\
    installed c = Http.NewTransport (Some transport) /\
    transport = fst (buildSocketTransport gitlabURL root) /\
    Http.DialContext transport = Some dial /\
    forall (ctx : Http.Context) (network address : string),
      Http.dialCtx (dial ctx network address) = ctx /\
      Http.dialNetwork (dial ctx network address) = "unix" /\
      Http.dialAddress (dial ctx network address)
        = Strings.TrimPrefix gitlabURL unixSocketProtocol /\
      gitlabURL = unixSocketProtocol ++ Http.dialAddress (dial ctx network address).
Proof.
  intros H.
  rewrite (dispatch_unix w gitlabURL root caFile caPath rt opts H).
  eexists. eexists. eexists.
  split; [reflexivity|]. split; [reflexivity|]. split; [reflexivity|].
  split; [reflexivity|].
  intros ctx network address.
  split; [reflexivity|]. split; [reflexivity|]. split; [reflexivity|].
  exact (TrimPrefix_split gitlabURL unixSocketProtocol H).
Qed.

Lemma socket_dialer_ignores_arguments_witness :
  Strings.HasPrefix "http+unix:///var/run/gitlab.sock" unixSocketProtocol = true /\
  exists c transport dial,
    NewHTTPClientWithOpts "http+unix:///var/run/gitlab.sock" "" "" "" 0 []
                          Samples.sampleWorld = (Some c, None, []) /\
    installed c = Http.NewTransport (Some transport) /\
    transport = fst (buildSocketTransport "http+unix:///var/run/gitlab.sock" "") /\
    Http.DialContext transport = Some dial /\
    forall (ctx : Http.Context) (network address : string),
      Http.dialCtx (dial ctx network address) = ctx /\
      Http.dialNetwork (dial ctx network address) = "unix" /\
      Http.dialAddress (dial ctx network address)
        = Strings.TrimPrefix "http+unix:///var/run/gitlab.sock" unixSocketProtocol /\
      "http+unix:///var/run/gitlab.sock"
        = unixSocketProtocol ++ Http.dialAddress (dial ctx network address).
Proof.
  split; [reflexivity|].
  apply (socket_dialer_ignores_arguments Samples.sampleWorld
           "http+unix:///var/run/gitlab.sock" "" "" "" 0 []).
  reflexivity.
Defined.

Example socket_dial_sample :
  option_map (fun dial => dial Samples.someCtx "tcp" "gitlab.example.com:80")
    (Http.DialContext
       (fst (buildSocketTransport "http+unix:///var/run/gitlab.sock" "")))
  = Some {| Http.dialCtx := Samples.someCtx;
            Http.dialNetwork := "unix";
            Http.dialAddress := "/var/run/gitlab.sock" |}.
Proof. reflexivity. Qed.

(** The host [buildHTTPSTransport] returns without an error is the URL. *)
Lemma buildHTTPSTransport_host (w : World) (hcc : httpClientCfg)
      (gitlabURL host : string) (transport : option Http.Transport) :
  fst (buildHTTPSTransport hcc gitlabURL w) = (transport, host, None) ->
  host = gitlabURL /\ exists certs,
    transport = Some (tlsTransport (trustPool w (caFile hcc) (caPath hcc)) certs).
Proof.
  rewrite buildHTTPSTransport_result.
  destruct (HaveCertAndKey hcc).
  - destruct (loadX509KeyPair w (certPath hcc) (keyPath hcc)); [|discriminate].
    intros [= <- <- _]. eauto.
  - intros [= <- <- _]. eauto.
Qed.

(** C4: the effective host.  On the socket branch it is [http://unix]
    when the relative root is empty once its leading and trailing slashes
    are trimmed and [http://unix/] followed by the trimmed root otherwise,
    where the trimmed root is the root without a run of slashes at either
    end and neither starts nor ends with a slash; on the plain and TLS
    branches the host of a returned client is the URL. *)
Theorem effective_host
        (w : World) (gitlabURL root caFile caPath : string) (rt : Z)
        (opts : list HTTPClientOpt) :
  let run := NewHTTPClientWithOpts gitlabURL root caFile caPath rt opts w in
  let trimmed := Strings.Trim root "/" in
  (Strings.HasPrefix gitlabURL unixSocketProtocol = true ->
   exists c, fst run = (Some c, None) /\
             (trimmed = "" -> Host c = "http://unix") /\
             (trimmed <> "" -> Host c = "http://unix/" ++ trimmed)) /\
  (Strings.HasPrefix gitlabURL httpProtocol = true ->
   exists c, fst run = (Some c, None) /\ Host c = gitlabURL) /\
  (Strings.HasPrefix gitlabURL httpsProtocol = true ->
   forall c, fst (fst run) = Some c -> Host c = gitlabURL) /\
  (exists a b, root = a ++ trimmed ++ b /\
               Strings.allIn "/" a = true /\ Strings.allIn "/" b = true) /\
  Strings.first trimmed <> Some "/"%char /\
  Strings.last trimmed <> Some "/"%char.
Proof.
  intros run trimmed. subst run.
  split; [|split; [|split; [|split; [|split]]]].
  - intros H. rewrite (dispatch_unix w gitlabURL root caFile caPath rt opts H).
    eexists. split; [reflexivity|]. simpl. fold trimmed. split.
    + intros ->. reflexivity.
    + intros Hne. apply nonEmpty_true in Hne. rewrite Hne. reflexivity.
  - intros H. rewrite (dispatch_http w gitlabURL root caFile caPath rt opts H).
    eexists. split; reflexivity.
  - intros H c Hc.
    destruct (returned_client_https w gitlabURL root caFile caPath rt opts c H Hc)
      as (transport & host & Hb & ->).
    apply buildHTTPSTransport_host in Hb as [-> _]. reflexivity.
  - apply (Trim_spec root "/").
  - intros H. apply (proj1 (proj2 (Trim_spec root "/"))) in H. discriminate.
  - intros H. apply (proj2 (proj2 (Trim_spec root "/"))) in H. discriminate.
Qed.

Lemma effective_host_witness :
  (exists c, fst (NewHTTPClientWithOpts "http+unix:///var/run/gitlab.sock"
                    "//api/v4/" "" "" 0 [] Samples.sampleWorld) = (Some c, None) /\
             Host c = "http://unix/api/v4") /\
  (exists c, fst (NewHTTPClientWithOpts "http+unix:///var/run/gitlab.sock"
                    "///" "" "" 0 [] Samples.sampleWorld) = (Some c, None) /\
             Host c = "http://unix") /\
  (exists c, fst (NewHTTPClientWithOpts "http://gitlab.example.com"
                    "/api" "" "" 0 [] Samples.sampleWorld) = (Some c, None) /\
             Host c = "http://gitlab.example.com") /\
  (exists c, fst (NewHTTPClientWithOpts "https://gitlab.example.com"
                    "/api" "" "" 0 [] Samples.sampleWorld) = (Some c, None) /\
             Host c = "https://gitlab.example.com").
Proof.
  split; [|split; [|split]].
  - destruct (effective_host Samples.sampleWorld "http+unix:///var/run/gitlab.sock"
                "//api/v4/" "" "" 0 []) as (Hu & _).
    destruct (Hu eq_refl) as (c & Hc & _ & Hne).
    exists c. split; [exact Hc|]. apply Hne. discriminate.
  - destruct (effective_host Samples.sampleWorld "http+unix:///var/run/gitlab.sock"
                "///" "" "" 0 []) as (Hu & _).
    destruct (Hu eq_refl) as (c & Hc & He & _).
    exists c. split; [exact Hc|]. apply He. reflexivity.
  - destruct (effective_host Samples.sampleWorld "http://gitlab.example.com"
                "/api" "" "" 0 []) as (_ & Hh & _).
    exact (Hh eq_refl).
  - destruct (effective_host Samples.sampleWorld "https://gitlab.example.com"
                "/api" "" "" 0 []) as (_ & _ & Hs & _).
    eexists. split; [reflexivity|]. apply (Hs eq_refl). reflexivity.
Defined.

(** C10: for a URL that begins with [http://] or [http+unix://]
    construction returns a client and no error whatever the CA file, the
    CA directory and the options are, and it reads nothing: no file is
    checked and no key pair is loaded. *)
Theorem non_tls_construction_succeeds
        (w : World) (gitlabURL root caFile caPath : string) (rt : Z)
        (opts : list HTTPClientOpt) :
  Strings.HasPrefix gitlabURL httpProtocol = true \/
  Strings.HasPrefix gitlabURL unixSocketProtocol = true ->
  exists c,
    NewHTTPClientWithOpts gitlabURL root caFile caPath rt opts w = (Some c, None, []).
Proof.
  intros [H|H].
  - rewrite (dispatch_http w gitlabURL root caFile caPath rt opts H). eauto.
  - rewrite (dispatch_unix w gitlabURL root caFile caPath rt opts H). eauto.
Qed.

Lemma non_tls_construction_succeeds_witness :
  (Strings.HasPrefix "http://gitlab.example.com" httpProtocol = true \/
   Strings.HasPrefix "http://gitlab.example.com" unixSocketProtocol = true) /\
  exists c,
    NewHTTPClientWithOpts "http://gitlab.example.com" "" Samples.missing
      Samples.missing 0 [WithClientCert Samples.missing Samples.missing]
      Samples.sampleWorldNoPool = (Some c, None, []).
Proof.
  split; [left; reflexivity|].
  apply (non_tls_construction_succeeds Samples.sampleWorldNoPool
           "http://gitlab.example.com" "" Samples.missing Samples.missing 0
           [WithClientCert Samples.missing Samples.missing]).
  left; reflexivity.
Defined.

(* ===================================================================== *)
(** ** Unknown prefixes *)

(** C5, as stated, at [ftp://host]: the URL begins with none of the three
    prefixes, construction returns an error and no client, and the message
    of the error is not ["unknown target URL prefix"]. *)
Lemma unknown_prefix_message_differs :
  Strings.HasPrefix "ftp://host" unixSocketProtocol = false /\
  Strings.HasPrefix "ftp://host" httpProtocol = false /\
  Strings.HasPrefix "ftp://host" httpsProtocol = false /\
  exists err,
    fst (NewHTTPClientWithOpts "ftp://host" "" "" "" 0 [] Samples.sampleWorld)
      = (None, Some err) /\
    Error err <> "unknown target URL prefix".
Proof.
  repeat (split; [reflexivity|]).
  eexists. split; [reflexivity|]. simpl. discriminate.
Qed.

(** C5, amended: for a URL that begins with none of [http+unix://],
    [http://] and [https://], construction returns no client and the error
    whose message is ["unknown GitLab URL prefix"], and reads nothing. *)
Theorem unknown_prefix_rejected
        (w : World) (gitlabURL root caFile caPath : string) (rt : Z)
        (opts : list HTTPClientOpt) :
  Strings.HasPrefix gitlabURL unixSocketProtocol = false ->
  Strings.HasPrefix gitlabURL httpProtocol = false ->
  Strings.HasPrefix gitlabURL httpsProtocol = false ->
  exists err,
    NewHTTPClientWithOpts gitlabURL root caFile caPath rt opts w
      = (None, Some err, []) /\
    Error err = "unknown GitLab URL prefix".
Proof.
  intros H1 H2 H3.
  rewrite (dispatch_unknown w gitlabURL root caFile caPath rt opts H1 H2 H3).
  eexists. split; reflexivity.
Qed.

Lemma unknown_prefix_rejected_witness :
  Strings.HasPrefix "ftp://host" unixSocketProtocol = false /\
  Strings.HasPrefix "ftp://host" httpProtocol = false /\
  Strings.HasPrefix "ftp://host" httpsProtocol = false /\
  exists err,
    NewHTTPClientWithOpts "ftp://host" "" "" "" 0 [] Samples.sampleWorld
      = (None, Some err, []) /\
    Error err = "unknown GitLab URL prefix".
Proof.
  repeat (split; [reflexivity|]).
  apply (unknown_prefix_rejected Samples.sampleWorld "ftp://host" "" "" "" 0 []);
    reflexivity.
Defined.

(* ===================================================================== *)
(** ** The request timeout *)

(** C6, as stated, at a read-timeout of 9223372037 seconds: the value is a
    non-zero [uint64], and the timeout of the client is a negative
    duration, not that many seconds. *)
Lemma read_timeout_wraps :
  0 < 9223372037 <= Time.maxUint64 /\
  readTimeout 9223372037 <> Time.seconds 9223372037 /\
  exists c,
    fst (NewHTTPClientWithOpts "http://gitlab.example.com" "" "" "" 9223372037 []
                               Samples.sampleWorld) = (Some c, None) /\
    timeoutOf c = -9223372036709551616 /\
    timeoutOf c <> Time.seconds 9223372037.
Proof.
  split; [split; [reflexivity|discriminate]|].
  split; [vm_compute; discriminate|].
  eexists. split; [reflexivity|]. split; [reflexivity|].
  vm_compute. discriminate.
Qed.

(** C6, amended: for every read-timeout of at most 9223372036 seconds,
    [readTimeout] is 300 seconds when the value is 0 and that many seconds
    otherwise, and this is the timeout of every client construction
    returns. *)
Theorem read_timeout_seconds (n : Z) :
  0 <= n <= 9223372036 ->
  readTimeout n = Time.seconds (if n =? 0 then 300 else n) /\
  forall (w : World) (gitlabURL root caFile caPath : string)
         (opts : list HTTPClientOpt) (c : HTTPClient),
    fst (fst (NewHTTPClientWithOpts gitlabURL root caFile caPath n opts w)) = Some c ->
    timeoutOf c = Time.seconds (if n =? 0 then 300 else n).
Proof.
  intros Hn. split; [now apply readTimeout_in_range|].
  intros w gitlabURL root caFile caPath opts c Hc.
  destruct (returned_client w gitlabURL root caFile caPath n opts c Hc)
    as (_ & transport & host & ->).
  unfold timeoutOf, assemble. simpl. now apply readTimeout_in_range.
Qed.

Lemma read_timeout_seconds_witness :
  (0 <= 0 <= 9223372036 /\ readTimeout 0 = Time.seconds 300) /\
  (0 <= 10 <= 9223372036 /\ readTimeout 10 = Time.seconds 10) /\
  exists c,
    fst (fst (NewHTTPClientWithOpts "http://gitlab.example.com" "" "" "" 10 []
                                    Samples.sampleWorld)) = Some c /\
    timeoutOf c = Time.seconds 10.
Proof.
  split; [|split].
  - split; [lia|]. apply (proj1 (read_timeout_seconds 0 ltac:(lia))).
  - split; [lia|]. apply (proj1 (read_timeout_seconds 10 ltac:(lia))).
  - eexists. split; [reflexivity|].
    apply (proj2 (read_timeout_seconds 10 ltac:(lia)) Samples.sampleWorld
                 "http://gitlab.example.com" "" "" "" []).
    reflexivity.
Defined.

(* ===================================================================== *)
(** ** Retry options *)

(** C7: the configuration starts with the retry values 1s, 15s and 2;
    options apply in the order given and each field keeps what was written
    to it last, so that the retry values of the resolved configuration are
    those of the last retry option, the default when there is none, and
    likewise the certificate paths; a retry option applied last decides
    the retry values after any options; the same kind of option applied
    twice leaves what the second application alone leaves; every client
    construction returns carries the retry values of the resolved
    configuration; and the option (2s, 20s, 5) yields, for a plain-HTTP
    URL, a client with exactly these values. *)
Theorem retry_options_last_writer_wins :
  (forall caFile caPath,
      retryOf (seedCfg caFile caPath) = (Time.seconds 1, Time.seconds 15, 2)) /\
  (forall ks hcc,
      retryOf (applyOpts (map optOf ks) hcc) = lastRetry ks (retryOf hcc) /\
      certOf (applyOpts (map optOf ks) hcc) = lastCert ks (certOf hcc)) /\
  (forall opts a b n hcc,
      retryOf (applyOpts (opts ++ [WithHTTPRetryOpts a b n])%list hcc) = (a, b, n)) /\
  (forall a b n a' b' n' hcc,
      applyOpts [WithHTTPRetryOpts a b n; WithHTTPRetryOpts a' b' n'] hcc
      = applyOpts [WithHTTPRetryOpts a' b' n'] hcc) /\
  (forall c k c' k' hcc,
      applyOpts [WithClientCert c k; WithClientCert c' k'] hcc
      = applyOpts [WithClientCert c' k'] hcc) /\
  (forall w gitlabURL root caFile caPath rt opts c,
      fst (fst (NewHTTPClientWithOpts gitlabURL root caFile caPath rt opts w)) = Some c ->
      retryPolicy c = retryOf (applyOpts opts (seedCfg caFile caPath))) /\
  (forall w gitlabURL root caFile caPath rt,
      Strings.HasPrefix gitlabURL httpProtocol = true ->
      exists c,
        fst (NewHTTPClientWithOpts gitlabURL root caFile caPath rt
               [WithHTTPRetryOpts (Time.seconds 2) (Time.seconds 20) 5] w)
          = (Some c, None) /\
        retryPolicy c = (Time.seconds 2, Time.seconds 20, 5)).
Proof.
  split; [reflexivity|].
  split; [intros; split; [apply applyOpts_lastRetry|apply applyOpts_lastCert]|].
  split; [intros; rewrite applyOpts_app; reflexivity|].
  split; [reflexivity|]. split; [reflexivity|]. split.
  - intros w gitlabURL root caFile caPath rt opts c Hc.
    destruct (returned_client w gitlabURL root caFile caPath rt opts c Hc)
      as (_ & transport & host & ->).
    apply assemble_retryPolicy.
  - intros w gitlabURL root caFile caPath rt H.
    rewrite (dispatch_http w gitlabURL root caFile caPath rt _ H).
    eexists. split; reflexivity.
Qed.

Lemma retry_options_last_writer_wins_witness :
  (exists c,
      fst (NewHTTPClientWithOpts "http://gitlab.example.com" "" "" "" 0
             [WithHTTPRetryOpts (Time.seconds 2) (Time.seconds 20) 5]
             Samples.sampleWorld) = (Some c, None) /\
      retryPolicy c = (Time.seconds 2, Time.seconds 20, 5)) /\
  (exists c,
      fst (fst (NewHTTPClientWithOpts "https://gitlab.example.com" "" "" "" 0
                  [WithHTTPRetryOpts (Time.seconds 2) (Time.seconds 20) 5;
                   WithClientCert Samples.clientCert Samples.clientKey;
                   WithHTTPRetryOpts (Time.seconds 3) (Time.seconds 30) 7]
                  Samples.sampleWorld)) = Some c /\
      retryPolicy c = (Time.seconds 3, Time.seconds 30, 7)).
Proof.
  destruct retry_options_last_writer_wins as (_ & _ & _ & _ & _ & Hc & Hh).
  split.
  - apply (Hh Samples.sampleWorld "http://gitlab.example.com" "" "" "" 0).
    reflexivity.
  - eexists. split; [reflexivity|].
    apply (Hc Samples.sampleWorld "https://gitlab.example.com" "" "" "" 0
              [WithHTTPRetryOpts (Time.seconds 2) (Time.seconds 20) 5;
               WithClientCert Samples.clientCert Samples.clientKey;
               WithHTTPRetryOpts (Time.seconds 3) (Time.seconds 30) 7]).
    reflexivity.
Defined.

(* ===================================================================== *)
(** ** The TLS strategy *)

Lemma validateCaFile_missing (w : World) (filename : string) (statErr : error) :
  filename <> "" ->
  stat w filename = Some statErr ->
  IsNotExist statErr = true ->
  validateCaFile filename w
  = (Some (Errorf_w ("cannot find cafile '" ++ filename ++ "'") ErrCafileNotFound),
     [EvStat filename]).
Proof.
  intros Hne Hs Hn. unfold validateCaFile.
  rewrite (eqb_empty_false _ Hne).
  unfold bind, os_Stat. rewrite Hs, Hn. reflexivity.
Qed.

Lemma validateCaFile_passes (w : World) (filename : string) :
  filename = "" \/ stat w filename = None ->
  fst (validateCaFile filename w) = None.
Proof.
  intros H. unfold validateCaFile.
  destruct (String.eqb filename "") eqn:E; [reflexivity|].
  destruct H as [->|H]; [discriminate|].
  unfold bind, os_Stat. rewrite H. reflexivity.
Qed.

Lemma append_assoc (a b c : string) : (a ++ b) ++ c = a ++ b ++ c.
Proof. induction a; simpl; congruence. Qed.

(** C1, as stated, at a CA file path below a regular file: the parent
    [/etc/gitlab/bundle.pem] is a file that exists and reads, nothing
    exists at [/etc/gitlab/bundle.pem/ca.pem] (it cannot be read or
    listed), and [os.Stat] answers [ENOTDIR], which [os.IsNotExist] does
    not recognise.  Construction for an [https://] URL returns no client
    and the error of [os.Stat] itself: it does not wrap
    [ErrCafileNotFound] and [errors.Is] does not match it. *)
Lemma missing_cafile_below_a_file :
  Strings.HasPrefix "https://gitlab.example.com" httpsProtocol = true /\
  NestedSample.nested <> "" /\
  stat NestedSample.nestedWorld Samples.bundle = None /\
  readFile NestedSample.nestedWorld Samples.bundle = Ok "PEM:bundle" /\
  stat NestedSample.nestedWorld NestedSample.nested
  = Some (PathError "stat" NestedSample.nested ENOTDIR) /\
  readFile NestedSample.nestedWorld NestedSample.nested
  = Err (PathError "open" NestedSample.nested ENOTDIR) /\
  readDir NestedSample.nestedWorld NestedSample.nested
  = ([], Some (PathError "open" NestedSample.nested ENOTDIR)) /\
  IsNotExist (PathError "stat" NestedSample.nested ENOTDIR) = false /\
  exists err,
    NewHTTPClientWithOpts "https://gitlab.example.com" "" NestedSample.nested ""
                          0 [] NestedSample.nestedWorld
    = (None, Some err, [EvStat NestedSample.nested]) /\
    err = PathError "stat" NestedSample.nested ENOTDIR /\
    Is err ErrCafileNotFound = false /\
    Unwrap err = None.
Proof.
  split; [reflexivity|]. split; [discriminate|].
  repeat (split; [reflexivity|]).
  eexists. repeat split.
Qed.

(** C1, amended: for a URL that begins with [https://] and a non-empty CA
    file that [os.Stat] reports as not existing, construction returns no client
    and an error that wraps [ErrCafileNotFound], is recognised as it by
    [errors.Is], and names the path in its message; the only thing
    construction did is the [os.Stat] of the file: no certificate pool was
    asked for or made, no file or directory read, no key pair loaded. *)
Theorem missing_cafile_aborts
        (w : World) (gitlabURL root caFile caPath : string) (rt : Z)
        (opts : list HTTPClientOpt) (statErr : error) :
  Strings.HasPrefix gitlabURL httpsProtocol = true ->
  caFile <> "" ->
  stat w caFile = Some statErr ->
  IsNotExist statErr = true ->
  exists err,
    NewHTTPClientWithOpts gitlabURL root caFile caPath rt opts w
      = (None, Some err, [EvStat caFile]) /\
    Is err ErrCafileNotFound = true /\
    Unwrap err = Some ErrCafileNotFound /\
    Error err = "cannot find cafile '" ++ caFile ++ "': cafile not found".
Proof.
  intros Hs Hne Hst Hn.
  rewrite (dispatch_https w gitlabURL root caFile caPath rt opts Hs).
  unfold bind. rewrite (validateCaFile_missing w caFile statErr Hne Hst Hn).
  eexists. split; [reflexivity|]. split; [reflexivity|]. split; [reflexivity|].
  unfold Errorf_w. simpl. now rewrite append_assoc.
Qed.

Lemma missing_cafile_aborts_witness :
  Strings.HasPrefix "https://gitlab.example.com" httpsProtocol = true /\
  Samples.missing <> "" /\
  stat Samples.sampleWorld Samples.missing
    = Some (PathError "stat" Samples.missing ENOENT) /\
  IsNotExist (PathError "stat" Samples.missing ENOENT) = true /\
  exists err,
    NewHTTPClientWithOpts "https://gitlab.example.com" "" Samples.missing
      Samples.caDir 0 [WithClientCert Samples.clientCert Samples.clientKey]
      Samples.sampleWorld
      = (None, Some err, [EvStat Samples.missing]) /\
    Is err ErrCafileNotFound = true /\
    Unwrap err = Some ErrCafileNotFound /\
    Error err = "cannot find cafile '" ++ Samples.missing ++ "': cafile not found".
Proof.
  split; [reflexivity|]. split; [discriminate|].
  split; [reflexivity|]. split; [reflexivity|].
  apply (missing_cafile_aborts Samples.sampleWorld "https://gitlab.example.com" ""
           Samples.missing Samples.caDir 0
           [WithClientCert Samples.clientCert Samples.clientKey]
           (PathError "stat" Samples.missing ENOENT)).
  - reflexivity.
  - discriminate.
  - reflexivity.
  - reflexivity.
Defined.

(** When the system pool is unavailable [buildHTTPSTransport] builds its
    transport over a pool that starts empty, and returns the error of the
    system pool next to it. *)
Lemma buildHTTPSTransport_without_system_pool
      (w : World) (hcc : httpClientCfg) (gitlabURL : string) (e : error) :
  systemCertPool w = Err e ->
  HaveCertAndKey hcc = false ->
  startPool w = [] /\
  fst (buildHTTPSTransport hcc gitlabURL w)
  = (Some (tlsTransport (trustPool w (caFile hcc) (caPath hcc)) []),
     gitlabURL, Some e).
Proof.
  intros He Hk. rewrite buildHTTPSTransport_result, Hk.
  unfold systemPoolError, startPool. rewrite He. auto.
Qed.

(** On the TLS branch an unavailable system pool ends construction: no
    client is returned. *)
Lemma system_pool_error_ends_construction
      (w : World) (gitlabURL root caFile caPath : string) (rt : Z)
      (opts : list HTTPClientOpt) (e : error) :
  Strings.HasPrefix gitlabURL httpsProtocol = true ->
  systemCertPool w = Err e ->
  fst (fst (NewHTTPClientWithOpts gitlabURL root caFile caPath rt opts w)) = None.
Proof.
  intros Hs He.
  destruct (fst (fst (NewHTTPClientWithOpts gitlabURL root caFile caPath rt opts w)))
    as [c|] eqn:Hc; [|reflexivity].
  destruct (returned_client_https w gitlabURL root caFile caPath rt opts c Hs Hc)
    as (transport & host & Hb & _).
  rewrite buildHTTPSTransport_result in Hb.
  unfold systemPoolError in Hb. rewrite He in Hb.
  destruct (HaveCertAndKey _); [|discriminate].
  destruct (loadX509KeyPair _ _ _); discriminate.
Qed.

(** C2, the code at a machine without a system pool: for
    [https://gitlab.example.com] with no CA file, no CA directory and no
    options, [buildHTTPSTransport] falls back to an empty pool and builds
    the transport, and returns the error of the system pool with it;
    construction then returns that error and no client. *)
Theorem system_pool_error_surfaces :
  systemCertPool Samples.sampleWorldNoPool = Err Samples.noSystemPool /\
  buildHTTPSTransport (seedCfg "" "") "https://gitlab.example.com"
                      Samples.sampleWorldNoPool
  = (Some (tlsTransport [] []), "https://gitlab.example.com",
     Some Samples.noSystemPool, [EvSystemCertPool; EvNewCertPool]) /\
  NewHTTPClientWithOpts "https://gitlab.example.com" "" "" "" 0 []
                        Samples.sampleWorldNoPool
  = (None, Some Samples.noSystemPool, [EvSystemCertPool; EvNewCertPool]).
Proof. repeat split. Qed.

Lemma HaveCertAndKey_true (hcc : httpClientCfg) :
  HaveCertAndKey hcc = true <-> certPath hcc <> "" /\ keyPath hcc <> "".
Proof.
  unfold HaveCertAndKey. rewrite andb_true_iff, !nonEmpty_true. tauto.
Qed.

Lemma HaveCertAndKey_one (hcc : httpClientCfg) :
  (certPath hcc = "" /\ keyPath hcc <> "") \/ (certPath hcc <> "" /\ keyPath hcc = "") ->
  HaveCertAndKey hcc = false.
Proof.
  unfold HaveCertAndKey, nonEmpty. intros [[-> _]|[_ ->]]; simpl.
  - apply andb_false_r.
  - reflexivity.
Qed.

(** C8: on the TLS branch the key pair is loaded exactly when the
    certificate path and the key path are both non-empty, and a client
    certificate is attached to a TLS configuration that is produced, and
    to the one in a client that is returned, exactly then; when both are
    set and the pair loads, the certificate list is that certificate; when
    exactly one is set, nothing is loaded, the certificate list is empty,
    and [buildHTTPSTransport] returns what it returns with neither set,
    whose error is that of the system pool alone. *)
Theorem client_certificate_iff_both_paths
        (w : World) (gitlabURL root caFile caPath : string) (rt : Z)
        (opts : list HTTPClientOpt) :
  let hcc := applyOpts opts (seedCfg caFile caPath) in
  let both := certPath hcc <> "" /\ keyPath hcc <> "" in
  let pool := trustPool w (Client.caFile hcc) (Client.caPath hcc) in
  let build := buildHTTPSTransport hcc gitlabURL w in
  Strings.HasPrefix gitlabURL httpsProtocol = true ->
  (existsb isLoad (snd build) = true <-> both) /\
  (forall transport host err,
      fst build = (Some transport, host, err) ->
      exists certs, transport = tlsTransport pool certs /\ (certs <> [] <-> both)) /\
  (forall c,
      fst (fst (NewHTTPClientWithOpts gitlabURL root caFile caPath rt opts w)) = Some c ->
      exists certs,
        installed c = Http.NewTransport (Some (tlsTransport pool certs)) /\
        (certs <> [] <-> both)) /\
  (forall cert,
      both ->
      loadX509KeyPair w (certPath hcc) (keyPath hcc) = Ok cert ->
      fst build = (Some (tlsTransport pool [cert]), gitlabURL, systemPoolError w)) /\
  ((certPath hcc = "" /\ keyPath hcc <> "") \/ (certPath hcc <> "" /\ keyPath hcc = "") ->
   existsb isLoad (snd build) = false /\
   fst build = (Some (tlsTransport pool []), gitlabURL, systemPoolError w) /\
   fst build = fst (buildHTTPSTransport (WithClientCert "" "" hcc) gitlabURL w)).
Proof.
  intros hcc both pool build Hs. subst build pool both.
  assert (Hbuild : forall transport host err,
             fst (buildHTTPSTransport hcc gitlabURL w) = (Some transport, host, err) ->
             exists certs,
               transport = tlsTransport (trustPool w (Client.caFile hcc) (Client.caPath hcc)) certs /\
               (certs <> [] <-> certPath hcc <> "" /\ keyPath hcc <> "")).
  { intros transport host err. rewrite buildHTTPSTransport_result.
    destruct (HaveCertAndKey hcc) eqn:Hk.
    - destruct (loadX509KeyPair w (certPath hcc) (keyPath hcc)) as [cert|e];
        [|discriminate].
      intros [= <- _ _]. exists [cert]. split; [reflexivity|].
      split; [intros _; now apply HaveCertAndKey_true | discriminate].
    - intros [= <- _ _]. exists []. split; [reflexivity|].
      split; [congruence|].
      intros Hb. apply HaveCertAndKey_true in Hb. congruence. }
  split; [|split; [|split; [|split]]].
  - rewrite buildHTTPSTransport_load. apply HaveCertAndKey_true.
  - exact Hbuild.
  - intros c Hc.
    destruct (returned_client_https w gitlabURL root caFile caPath rt opts c Hs Hc)
      as (transport & host & Hb & ->).
    fold hcc in Hb.
    destruct (buildHTTPSTransport_host w hcc gitlabURL host transport Hb)
      as (_ & certs & ->).
    destruct (Hbuild _ _ _ Hb) as (certs' & Heq & Hiff).
    exists certs'. split; [|exact Hiff].
    unfold installed, assemble. simpl. now rewrite Heq.
  - intros cert Hb Hl. apply HaveCertAndKey_true in Hb.
    rewrite buildHTTPSTransport_result, Hb, Hl. reflexivity.
  - intros Hone. apply HaveCertAndKey_one in Hone.
    rewrite buildHTTPSTransport_load, !buildHTTPSTransport_result, Hone.
    repeat split.
Qed.

Lemma client_certificate_iff_both_paths_witness :
  Strings.HasPrefix "https://gitlab.example.com" httpsProtocol = true /\
  fst (buildHTTPSTransport
         (applyOpts [WithClientCert Samples.clientCert Samples.clientKey]
                    (seedCfg "" ""))
         "https://gitlab.example.com" Samples.sampleWorld)
  = (Some (tlsTransport ["DER:root1"; "DER:root2"]
             [{| Chain := ["DER:client"]; PrivateKey := "KEY:client" |}]),
     "https://gitlab.example.com", None) /\
  fst (buildHTTPSTransport
         (applyOpts [WithClientCert Samples.clientCert ""] (seedCfg "" ""))
         "https://gitlab.example.com" Samples.sampleWorld)
  = (Some (tlsTransport ["DER:root1"; "DER:root2"] []),
     "https://gitlab.example.com", None).
Proof.
  split; [reflexivity|]. split.
  - destruct (client_certificate_iff_both_paths Samples.sampleWorld
                "https://gitlab.example.com" "" "" "" 0
                [WithClientCert Samples.clientCert Samples.clientKey] eq_refl)
      as (_ & _ & _ & Hvalid & _).
    apply Hvalid; [split; discriminate | reflexivity].
  - destruct (client_certificate_iff_both_paths Samples.sampleWorld
                "https://gitlab.example.com" "" "" "" 0
                [WithClientCert Samples.clientCert ""] eq_refl)
      as (_ & _ & _ & _ & Hone).
    apply Hone. right. split; [discriminate | reflexivity].
Defined.

(* ===================================================================== *)
(** ** The CA directory *)

Lemma In_AddCert (pool : CertPool) (c x : x509_Certificate) :
  In x (AddCert pool c) <-> In x pool \/ x = c.
Proof.
  unfold AddCert. destruct (existsb (String.eqb c) pool) eqn:E.
  - split; [auto|]. intros [H| ->]; [exact H|].
    apply existsb_exists in E as (y & Hy & Heq).
    apply String.eqb_eq in Heq. now subst y.
  - rewrite in_app_iff. simpl. intuition congruence.
Qed.

Lemma entryCerts_passedOver (w : World) (dir : string) (fi : DirEntry) :
  passedOver w dir fi -> entryCerts w dir fi = [].
Proof.
  unfold passedOver, entryCerts, fileCerts.
  intros [-> | [[e ->] | [data [-> ->]]]]; [reflexivity| |];
    destruct (IsDir fi); reflexivity.
Qed.

Lemma scan_passedOver (w : World) (dir : string) (fis : list DirEntry)
      (pool : CertPool) :
  Forall (passedOver w dir) fis ->
  fold_left (fun pool fi => addAll pool (entryCerts w dir fi)) fis pool = pool.
Proof.
  intros H; revert pool; induction H as [|fi fis Hfi _ IH]; intros pool; simpl.
  - reflexivity.
  - rewrite (entryCerts_passedOver _ _ _ Hfi). apply IH.
Qed.

(** The pool of a directory in which one entry yields one certificate and
    every other entry is passed over. *)
Lemma trustPool_one_certificate
      (w : World) (caFile caPath : string) (before after : list DirEntry)
      (good : DirEntry) (derr : option error) (data : string)
      (cert : x509_Certificate) :
  caPath <> "" ->
  readDir w caPath = ((before ++ good :: after)%list, derr) ->
  IsDir good = false ->
  readFile w (clean w (joined w caPath (Name good))) = Ok data ->
  pemCertificates w data = [cert] ->
  Forall (passedOver w caPath) (before ++ after)%list ->
  trustPool w caFile caPath = AddCert (poolAfterCaFile w caFile) cert.
Proof.
  intros Hne Hdir Hfile Hread Hpem Hrest.
  apply Forall_app in Hrest as [Hb Ha].
  unfold trustPool. apply nonEmpty_true in Hne. rewrite Hne, Hdir. simpl.
  rewrite fold_left_app. simpl.
  rewrite (scan_passedOver _ _ _ _ Hb).
  unfold entryCerts at 2. rewrite Hfile. unfold fileCerts. rewrite Hread, Hpem.
  simpl. apply scan_passedOver. exact Ha.
Qed.

(** C9, as stated, at a CA directory that holds a certificate file, a
    file that is not PEM and a subdirectory: construction for an
    [https://] URL returns an error and no client when the CA file does
    not exist, and also when the client key pair does not load. *)
Lemma ca_directory_does_not_decide_success :
  Strings.HasPrefix "https://gitlab.example.com" httpsProtocol = true /\
  readDir Samples.sampleWorld Samples.caDir
  = ([ {| Name := "bad.pem"; IsDir := false |};
       {| Name := "good.pem"; IsDir := false |};
       {| Name := "sub"; IsDir := true |} ], None) /\
  fileCerts Samples.sampleWorld Samples.goodPem = ["DER:good"] /\
  readFile Samples.sampleWorld Samples.badPem = Ok "not a certificate" /\
  fileCerts Samples.sampleWorld Samples.badPem = [] /\
  (exists err,
      fst (NewHTTPClientWithOpts "https://gitlab.example.com" "" Samples.missing
             Samples.caDir 0 [] Samples.sampleWorld) = (None, Some err) /\
      Is err ErrCafileNotFound = true) /\
  (exists err,
      fst (NewHTTPClientWithOpts "https://gitlab.example.com" "" ""
             Samples.caDir 0 [WithClientCert Samples.badPem Samples.clientKey]
             Samples.sampleWorld) = (None, Some err) /\
      loadX509KeyPair Samples.sampleWorld Samples.badPem Samples.clientKey
      = Err err).
Proof.
  repeat (split; [reflexivity|]).
  split; eexists; split; reflexivity.
Qed.

(** C9, amended: for a URL that begins with [https://], when the CA file
    is unset or passes the existence check, the system pool is available
    and the key pair, if both of its paths are set, loads, a CA directory
    whose listing holds one file that reads and decodes to one certificate
    while every other entry is a directory, a file that cannot be read, or
    a file no certificate decodes from, makes construction return a client
    and no error; the trust pool of its TLS configuration is the pool
    before the directory with that certificate added, and holds nothing
    else.  An error of the directory listing is ignored. *)
Theorem ca_directory_best_effort
        (w : World) (gitlabURL root caFile caPath : string) (rt : Z)
        (ks : list optKind) (sysPool : CertPool)
        (before after : list DirEntry) (good : DirEntry) (derr : option error)
        (data : string) (cert : x509_Certificate) :
  let hcc := applyOpts (map optOf ks) (seedCfg caFile caPath) in
  Strings.HasPrefix gitlabURL httpsProtocol = true ->
  caFile = "" \/ stat w caFile = None ->
  systemCertPool w = Ok sysPool ->
  (HaveCertAndKey hcc = false \/
   exists pair, loadX509KeyPair w (certPath hcc) (keyPath hcc) = Ok pair) ->
  caPath <> "" ->
  readDir w caPath = ((before ++ good :: after)%list, derr) ->
  IsDir good = false ->
  readFile w (clean w (joined w caPath (Name good))) = Ok data ->
  pemCertificates w data = [cert] ->
  Forall (passedOver w caPath) (before ++ after)%list ->
  exists c certs,
    fst (NewHTTPClientWithOpts gitlabURL root caFile caPath rt (map optOf ks) w)
      = (Some c, None) /\
    installed c
      = Http.NewTransport
          (Some (tlsTransport (AddCert (poolAfterCaFile w caFile) cert) certs)) /\
    forall x, In x (AddCert (poolAfterCaFile w caFile) cert)
              <-> In x (poolAfterCaFile w caFile) \/ x = cert.
Proof.
  intros hcc Hs Hca Hsys Hkey Hne Hdir Hfile Hread Hpem Hrest.
  pose proof (trustPool_one_certificate w caFile caPath before after good derr
                data cert Hne Hdir Hfile Hread Hpem Hrest) as Hpool.
  destruct (applyOpts_ca ks (seedCfg caFile caPath)) as [HcaFile HcaPath].
  simpl in HcaFile, HcaPath. fold hcc in HcaFile, HcaPath.
  assert (Hbuild : exists certs,
             fst (buildHTTPSTransport hcc gitlabURL w)
             = (Some (tlsTransport (AddCert (poolAfterCaFile w caFile) cert) certs),
                gitlabURL, None)).
  { rewrite buildHTTPSTransport_result, HcaFile, HcaPath, Hpool.
    unfold systemPoolError. rewrite Hsys.
    destruct Hkey as [->|[pair Hpair]]; [eauto|].
    destruct (HaveCertAndKey hcc); [rewrite Hpair|]; eauto. }
  destruct Hbuild as [certs Hbuild].
  pose proof (validateCaFile_passes w caFile Hca) as Hv.
  rewrite (dispatch_https w gitlabURL root caFile caPath rt (map optOf ks) Hs).
  unfold bind. fold hcc.
  destruct (validateCaFile caFile w) as [verr t0]. simpl in Hv. subst verr.
  destruct (buildHTTPSTransport hcc gitlabURL w) as [r t1]. simpl in Hbuild.
  subst r. simpl.
  eexists. exists certs. split; [reflexivity|]. split; [reflexivity|].
  intros x. apply In_AddCert.
Qed.

Lemma ca_directory_best_effort_witness :
  exists c certs,
    fst (NewHTTPClientWithOpts "https://gitlab.example.com" "" Samples.bundle
           Samples.caDir 0
           (map optOf [ClientCert Samples.clientCert Samples.clientKey])
           Samples.sampleWorld) = (Some c, None) /\
    installed c
    = Http.NewTransport
        (Some (tlsTransport ["DER:root1"; "DER:root2"; "DER:bundle"; "DER:good"]
                 certs)).
Proof.
  destruct (ca_directory_best_effort Samples.sampleWorld
              "https://gitlab.example.com" "" Samples.bundle Samples.caDir 0
              [ClientCert Samples.clientCert Samples.clientKey]
              ["DER:root1"; "DER:root2"]
              [ {| Name := "bad.pem"; IsDir := false |} ]
              [ {| Name := "sub"; IsDir := true |} ]
              {| Name := "good.pem"; IsDir := false |}
              None "PEM:good" "DER:good")
    as (c & certs & Hc & Hi & _).
  - reflexivity.
  - right; reflexivity.
  - reflexivity.
  - right. eexists. reflexivity.
  - discriminate.
  - reflexivity.
  - reflexivity.
  - reflexivity.
  - reflexivity.
  - constructor.
    + right; right. exists "not a certificate". split; reflexivity.
    + constructor; [|constructor]. left; reflexivity.
  - exists c, certs. split; [exact Hc | exact Hi].
Defined.


(* ===================================================================== *)
(** ** Construction as a whole *)

Import Reads.

(** X1: construction returns either a client and no error, or an error
    and no client, never both and never neither; a client that is
    returned has a transport installed, not a nil one, and no logger. *)
Theorem construction_is_atomic
        (w : World) (gitlabURL root caFile caPath : string) (rt : Z)
        (opts : list HTTPClientOpt) :
  (exists c transport,
      fst (NewHTTPClientWithOpts gitlabURL root caFile caPath rt opts w)
        = (Some c, None) /\
      installed c = Http.NewTransport (Some transport) /\
      Retryablehttp.Logger (RetryableHTTP c) = None) \/
  (exists err,
      fst (NewHTTPClientWithOpts gitlabURL root caFile caPath rt opts w)
        = (None, Some err)).
Proof.
  destruct (Strings.HasPrefix gitlabURL unixSocketProtocol) eqn:Hu.
  { left. rewrite (dispatch_unix w gitlabURL root caFile caPath rt opts Hu).
    eexists. eexists. repeat split. }
  destruct (Strings.HasPrefix gitlabURL httpProtocol) eqn:Hh.
  { left. rewrite (dispatch_http w gitlabURL root caFile caPath rt opts Hh).
    eexists. eexists. repeat split. }
  destruct (Strings.HasPrefix gitlabURL httpsProtocol) eqn:Hs.
  2:{ right. rewrite (dispatch_unknown w gitlabURL root caFile caPath rt opts Hu Hh Hs).
      eexists. reflexivity. }
  rewrite (dispatch_https w gitlabURL root caFile caPath rt opts Hs). unfold bind.
  destruct (validateCaFile caFile w) as [[e|] t]; [right; eexists; reflexivity|].
  destruct (buildHTTPSTransport (applyOpts opts (seedCfg caFile caPath)) gitlabURL w)
    as [[[tr host] [e|]] t'] eqn:Hb; [right; eexists; reflexivity|].
  left.
  assert (Hf : fst (buildHTTPSTransport (applyOpts opts (seedCfg caFile caPath))
                                        gitlabURL w) = (tr, host, None))
    by (rewrite Hb; reflexivity).
  apply buildHTTPSTransport_host in Hf as (_ & certs & ->).
  eexists. eexists. repeat split.
Qed.

(** X2: the errors construction can return.  An error that is returned is
    the unknown-prefix error for a URL with none of the three prefixes,
    or, for an [https://] URL, the wrapped [ErrCafileNotFound] for a CA
    file [os.Stat] reports missing, the error of [os.Stat] itself when it
    is another one, the error of loading the key pair when both paths are
    set, or the error of the system certificate pool. *)
Theorem construction_errors
        (w : World) (gitlabURL root caFile caPath : string) (rt : Z)
        (opts : list HTTPClientOpt) (err : error) :
  let hcc := applyOpts opts (seedCfg caFile caPath) in
  snd (fst (NewHTTPClientWithOpts gitlabURL root caFile caPath rt opts w)) = Some err ->
  (Strings.HasPrefix gitlabURL unixSocketProtocol = false /\
   Strings.HasPrefix gitlabURL httpProtocol = false /\
   Strings.HasPrefix gitlabURL httpsProtocol = false /\
   err = New "unknown GitLab URL prefix") \/
  (Strings.HasPrefix gitlabURL httpsProtocol = true /\
   ((exists statErr,
        caFile <> "" /\ stat w caFile = Some statErr /\ IsNotExist statErr = true /\
        err = Errorf_w ("cannot find cafile '" ++ caFile ++ "'") ErrCafileNotFound) \/
    (caFile <> "" /\ stat w caFile = Some err /\ IsNotExist err = false) \/
    (HaveCertAndKey hcc = true /\
     loadX509KeyPair w (certPath hcc) (keyPath hcc) = Err err) \/
    systemCertPool w = Err err)).
Proof.
  intros hcc.
  destruct (Strings.HasPrefix gitlabURL unixSocketProtocol) eqn:Hu.
  { rewrite (dispatch_unix w gitlabURL root caFile caPath rt opts Hu). discriminate. }
  destruct (Strings.HasPrefix gitlabURL httpProtocol) eqn:Hh.
  { rewrite (dispatch_http w gitlabURL root caFile caPath rt opts Hh). discriminate. }
  destruct (Strings.HasPrefix gitlabURL httpsProtocol) eqn:Hs.
  2:{ rewrite (dispatch_unknown w gitlabURL root caFile caPath rt opts Hu Hh Hs).
      simpl. intros [= <-]. left. auto. }
  intros H. right. split; [reflexivity|]. revert H.
  rewrite (dispatch_https w gitlabURL root caFile caPath rt opts Hs). unfold bind.
  unfold validateCaFile at 1.
  destruct (String.eqb caFile "") eqn:Hca.
  - simpl.
    pose proof (buildHTTPSTransport_result w hcc gitlabURL) as Hr. fold hcc.
    destruct (buildHTTPSTransport hcc gitlabURL w) as [[[tr host] e] t']. simpl in Hr.
    destruct (HaveCertAndKey hcc) eqn:Hk.
    + destruct (loadX509KeyPair w (certPath hcc) (keyPath hcc)) as [pair|le] eqn:Hl.
      * injection Hr as -> -> ->. unfold systemPoolError.
        destruct (systemCertPool w); simpl; [discriminate|].
        intros [= <-]. auto.
      * injection Hr as -> -> ->. simpl. intros [= <-]. auto.
    + injection Hr as -> -> ->. unfold systemPoolError.
      destruct (systemCertPool w); simpl; [discriminate|].
      intros [= <-]. auto.
  - apply String.eqb_neq in Hca. unfold bind, os_Stat.
    destruct (stat w caFile) as [statErr|] eqn:Hst.
    + destruct (IsNotExist statErr) eqn:Hn; simpl; intros [= <-].
      * left. exists statErr. auto.
      * right. left. auto.
    + simpl.
      pose proof (buildHTTPSTransport_result w hcc gitlabURL) as Hr. fold hcc.
      destruct (buildHTTPSTransport hcc gitlabURL w) as [[[tr host] e] t']. simpl in Hr.
      destruct (HaveCertAndKey hcc) eqn:Hk.
      * destruct (loadX509KeyPair w (certPath hcc) (keyPath hcc)) as [pair|le] eqn:Hl.
        -- injection Hr as -> -> ->. unfold systemPoolError.
           destruct (systemCertPool w); simpl; [discriminate|].
           intros [= <-]. auto.
        -- injection Hr as -> -> ->. simpl. intros [= <-]. auto.
      * injection Hr as -> -> ->. unfold systemPoolError.
        destruct (systemCertPool w); simpl; [discriminate|].
        intros [= <-]. auto.
Qed.

Lemma construction_errors_witness :
  snd (fst (NewHTTPClientWithOpts "https://gitlab.example.com" "" "" "" 0
              [WithClientCert Samples.badPem Samples.clientKey]
              Samples.sampleWorldNoPool))
  = Some (opaqueError "tls: failed to find any PEM data in certificate input") /\
  loadX509KeyPair Samples.sampleWorldNoPool Samples.badPem Samples.clientKey
  = Err (opaqueError "tls: failed to find any PEM data in certificate input").
Proof.
  split; [reflexivity|].
  destruct (construction_errors Samples.sampleWorldNoPool
              "https://gitlab.example.com" "" "" "" 0
              [WithClientCert Samples.badPem Samples.clientKey]
              (opaqueError "tls: failed to find any PEM data in certificate input")
              eq_refl)
    as [(_ & _ & H & _) | (_ & [(e & H & _) | [(H & _) | [(_ & H) | H]]])].
  - discriminate H.
  - exfalso. apply H. reflexivity.
  - exfalso. apply H. reflexivity.
  - exact H.
  - discriminate H.
Defined.

(** The result of construction on the TLS branch, without the trace. *)
Lemma https_result
      (w : World) (gitlabURL root caFile caPath : string) (rt : Z)
      (opts : list HTTPClientOpt) :
  Strings.HasPrefix gitlabURL httpsProtocol = true ->
  fst (NewHTTPClientWithOpts gitlabURL root caFile caPath rt opts w) =
  match fst (validateCaFile caFile w) with
  | Some err => (None, Some err)
  | None =>
      match fst (buildHTTPSTransport (applyOpts opts (seedCfg caFile caPath))
                                     gitlabURL w) with
      | (transport, host, Some err) => (None, Some err)
      | (transport, host, None) =>
          (Some (assemble (applyOpts opts (seedCfg caFile caPath)) transport host rt),
           None)
      end
  end.
Proof.
  intros Hs.
  rewrite (dispatch_https w gitlabURL root caFile caPath rt opts Hs). unfold bind.
  destruct (validateCaFile caFile w) as [[e|] t]; [reflexivity|].
  destruct (buildHTTPSTransport _ gitlabURL w) as [[[tr host] [e|]] t'];
    reflexivity.
Qed.

(** X3: for an [https://] URL and a non-empty CA file for which [os.Stat]
    fails with an error other than not-exist, construction returns that
    very error, not wrapped, and no client, and has done nothing but the
    [os.Stat]. *)
Theorem stat_error_surfaces_verbatim
        (w : World) (gitlabURL root caFile caPath : string) (rt : Z)
        (opts : list HTTPClientOpt) (statErr : error) :
  Strings.HasPrefix gitlabURL httpsProtocol = true ->
  caFile <> "" ->
  stat w caFile = Some statErr ->
  IsNotExist statErr = false ->
  NewHTTPClientWithOpts gitlabURL root caFile caPath rt opts w
  = (None, Some statErr, [EvStat caFile]).
Proof.
  intros Hs Hne Hst Hn.
  rewrite (dispatch_https w gitlabURL root caFile caPath rt opts Hs).
  unfold bind, validateCaFile. rewrite (eqb_empty_false _ Hne).
  unfold bind, os_Stat. rewrite Hst, Hn. reflexivity.
Qed.

Lemma stat_error_surfaces_verbatim_witness :
  NewHTTPClientWithOpts "https://gitlab.example.com" "" MoreSamples.locked
                        Samples.caDir 0 [] MoreSamples.lockedWorld
  = (None, Some (PathError "stat" MoreSamples.locked EACCES),
     [EvStat MoreSamples.locked]) /\
  Is (PathError "stat" MoreSamples.locked EACCES) ErrCafileNotFound = false.
Proof.
  split; [|reflexivity].
  apply (stat_error_surfaces_verbatim MoreSamples.lockedWorld
           "https://gitlab.example.com" "" MoreSamples.locked Samples.caDir 0 []
           (PathError "stat" MoreSamples.locked EACCES)).
  - reflexivity.
  - discriminate.
  - reflexivity.
  - reflexivity.
Defined.

(** X4: for an [https://] URL whose CA file is unset or passes the
    existence check, when both the certificate path and the key path are
    set and the pair does not load, [buildHTTPSTransport] returns a nil
    transport, an empty host and the load error, and construction returns
    the load error and no client, whether or not the system pool is
    available. *)
Theorem key_pair_failure_aborts
        (w : World) (gitlabURL root caFile caPath : string) (rt : Z)
        (opts : list HTTPClientOpt) (loadErr : error) :
  let hcc := applyOpts opts (seedCfg caFile caPath) in
  Strings.HasPrefix gitlabURL httpsProtocol = true ->
  caFile = "" \/ stat w caFile = None ->
  certPath hcc <> "" ->
  keyPath hcc <> "" ->
  loadX509KeyPair w (certPath hcc) (keyPath hcc) = Err loadErr ->
  fst (buildHTTPSTransport hcc gitlabURL w) = (None, "", Some loadErr) /\
  fst (NewHTTPClientWithOpts gitlabURL root caFile caPath rt opts w)
  = (None, Some loadErr).
Proof.
  intros hcc Hs Hca Hc Hk Hl.
  assert (Hb : fst (buildHTTPSTransport hcc gitlabURL w) = (None, "", Some loadErr)).
  { rewrite buildHTTPSTransport_result.
    rewrite (proj2 (HaveCertAndKey_true hcc) (conj Hc Hk)), Hl. reflexivity. }
  split; [exact Hb|].
  rewrite (https_result w gitlabURL root caFile caPath rt opts Hs).
  rewrite (validateCaFile_passes w caFile Hca). fold hcc. rewrite Hb. reflexivity.
Qed.

Lemma key_pair_failure_aborts_witness :
  fst (NewHTTPClientWithOpts "https://gitlab.example.com" "" Samples.bundle
         Samples.caDir 0 [WithClientCert Samples.clientCert Samples.badPem]
         Samples.sampleWorldNoPool)
  = (None, Some (opaqueError "tls: failed to find any PEM data in certificate input")).
Proof.
  apply (key_pair_failure_aborts Samples.sampleWorldNoPool
           "https://gitlab.example.com" "" Samples.bundle Samples.caDir 0
           [WithClientCert Samples.clientCert Samples.badPem]
           (opaqueError "tls: failed to find any PEM data in certificate input")).
  - reflexivity.
  - right; reflexivity.
  - discriminate.
  - discriminate.
  - reflexivity.
Defined.

(* ===================================================================== *)
(** ** The transport of each strategy *)

(** X5: the transport installed in a client that is returned.  On the
    socket branch it has a dialer and no TLS configuration; on the plain
    branch it is the zero transport, with neither; on the TLS branch it
    has no dialer and a TLS configuration whose minimum version is
    TLS 1.2 ([0x0303]). *)
Theorem transport_of_each_strategy
        (w : World) (gitlabURL root caFile caPath : string) (rt : Z)
        (opts : list HTTPClientOpt) (c : HTTPClient) :
  fst (fst (NewHTTPClientWithOpts gitlabURL root caFile caPath rt opts w)) = Some c ->
  exists transport,
    installed c = Http.NewTransport (Some transport) /\
    (Strings.HasPrefix gitlabURL unixSocketProtocol = true ->
     Http.DialContext transport <> None /\ Http.TLSClientConfig transport = None) /\
    (Strings.HasPrefix gitlabURL httpProtocol = true ->
     Http.DialContext transport = None /\ Http.TLSClientConfig transport = None) /\
    (Strings.HasPrefix gitlabURL httpsProtocol = true ->
     Http.DialContext transport = None /\
     exists cfg, Http.TLSClientConfig transport = Some cfg /\
                 Http.MinVersion cfg = 3 * 256 + 3).
Proof.
  destruct (Strings.HasPrefix gitlabURL unixSocketProtocol) eqn:Hu.
  { rewrite (dispatch_unix w gitlabURL root caFile caPath rt opts Hu). simpl.
    intros [= <-]. eexists. split; [reflexivity|]. split; [|split].
    - intros _. split; [discriminate|reflexivity].
    - intros Hh. apply http_not_unix in Hh. congruence.
    - intros Hs. apply https_not_unix in Hs. congruence. }
  destruct (Strings.HasPrefix gitlabURL httpProtocol) eqn:Hh.
  { rewrite (dispatch_http w gitlabURL root caFile caPath rt opts Hh). simpl.
    intros [= <-]. eexists. split; [reflexivity|]. split; [|split].
    - discriminate.
    - intros _. split; reflexivity.
    - intros Hs. apply https_not_http in Hs. congruence. }
  intros Hc.
  destruct (Strings.HasPrefix gitlabURL httpsProtocol) eqn:Hs.
  2:{ rewrite (dispatch_unknown w gitlabURL root caFile caPath rt opts Hu Hh Hs) in Hc.
      discriminate. }
  destruct (returned_client_https w gitlabURL root caFile caPath rt opts c Hs Hc)
    as (transport & host & Hb & ->).
  apply buildHTTPSTransport_host in Hb as (_ & certs & ->).
  eexists. split; [reflexivity|].
  split; [|split]; try discriminate.
  intros _. split; [reflexivity|]. eexists. split; reflexivity.
Qed.

Lemma transport_of_each_strategy_witness :
  exists c transport cfg,
    fst (fst (NewHTTPClientWithOpts "https://gitlab.example.com" "" "" "" 0 []
                Samples.sampleWorld)) = Some c /\
    installed c = Http.NewTransport (Some transport) /\
    Http.DialContext transport = None /\
    Http.TLSClientConfig transport = Some cfg /\
    Http.MinVersion cfg = 771.
Proof.
  destruct (transport_of_each_strategy Samples.sampleWorld
              "https://gitlab.example.com" "" "" "" 0 [] _ eq_refl)
    as (transport & Hi & _ & _ & Hs).
  destruct (Hs eq_refl) as (Hd & cfg & Hcfg & Hmin).
  eexists. exists transport, cfg. split; [reflexivity|].
  split; [exact Hi|]. split; [exact Hd|]. split; [exact Hcfg|exact Hmin].
Defined.

(* ===================================================================== *)
(** ** What the trust pool holds *)

Lemma In_addAll (certs : list x509_Certificate) (pool : CertPool)
      (x : x509_Certificate) :
  In x (addAll pool certs) <-> In x pool \/ In x certs.
Proof.
  unfold addAll. revert pool; induction certs as [|c certs IH]; intros pool; simpl.
  - tauto.
  - rewrite IH, In_AddCert. intuition congruence.
Qed.

Lemma In_entryCerts (w : World) (dir : string) (fi : DirEntry)
      (x : x509_Certificate) :
  In x (entryCerts w dir fi) <->
  IsDir fi = false /\ In x (fileCerts w (joined w dir (Name fi))).
Proof.
  unfold entryCerts. destruct (IsDir fi); simpl; intuition congruence.
Qed.

Lemma In_scan (w : World) (dir : string) (fis : list DirEntry) (pool : CertPool)
      (x : x509_Certificate) :
  In x (fold_left (fun pool fi => addAll pool (entryCerts w dir fi)) fis pool) <->
  In x pool \/ exists fi, In fi fis /\ In x (entryCerts w dir fi).
Proof.
  revert pool; induction fis as [|fi fis IH]; intros pool; simpl.
  - split; [auto|]. intros [H|(fi & [] & _)]. exact H.
  - rewrite IH, In_addAll. split.
    + intros [[H|H]|(fi' & Hin & H)]; eauto.
    + intros [H|(fi' & [<-|Hin] & H)]; eauto.
Qed.

Lemma In_trustPool (w : World) (caFile caPath : string) (x : x509_Certificate) :
  In x (trustPool w caFile caPath) <->
  In x (startPool w) \/
  (caFile <> "" /\ In x (fileCerts w caFile)) \/
  (caPath <> "" /\
   exists fi, In fi (fst (readDir w caPath)) /\ IsDir fi = false /\
              In x (fileCerts w (joined w caPath (Name fi)))).
Proof.
  assert (Hfile : In x (poolAfterCaFile w caFile) <->
                  In x (startPool w) \/ (caFile <> "" /\ In x (fileCerts w caFile))).
  { unfold poolAfterCaFile. destruct (nonEmpty caFile) eqn:E.
    - apply nonEmpty_true in E. rewrite In_addAll. tauto.
    - apply nonEmpty_false in E. tauto. }
  unfold trustPool. destruct (nonEmpty caPath) eqn:E.
  - apply nonEmpty_true in E. rewrite In_scan, Hfile. split.
    + intros [[H|H]|(fi & Hin & H)]; auto.
      apply In_entryCerts in H as [Hd H]. right; right. eauto 6.
    + intros [H|[H|(_ & fi & Hin & Hd & H)]]; auto.
      right. exists fi. split; [exact Hin|]. apply In_entryCerts. auto.
  - apply nonEmpty_false in E. rewrite Hfile. split; [tauto|].
    intros [H|[H|(Hne & _)]]; auto. congruence.
Qed.

(** X6: the trust pool of every TLS configuration [buildHTTPSTransport]
    produces holds exactly the certificates of the system pool (none when
    it is unavailable), those decoded from the CA file when one is set,
    and those decoded from the entries of the CA directory listing that
    are not directories, when a directory is set. *)
Theorem trust_pool_members
        (w : World) (hcc : httpClientCfg) (gitlabURL host : string)
        (transport : Http.Transport) (err : option error) (cfg : Http.tls_Config)
        (x : x509_Certificate) :
  fst (buildHTTPSTransport hcc gitlabURL w) = (Some transport, host, err) ->
  Http.TLSClientConfig transport = Some cfg ->
  (In x (Http.RootCAs cfg) <->
   In x (startPool w) \/
   (caFile hcc <> "" /\ In x (fileCerts w (caFile hcc))) \/
   (caPath hcc <> "" /\
    exists fi, In fi (fst (readDir w (caPath hcc))) /\ IsDir fi = false /\
               In x (fileCerts w (joined w (caPath hcc) (Name fi))))).
Proof.
  rewrite buildHTTPSTransport_result. intros Hb Hcfg.
  assert (Hpool : Http.RootCAs cfg = trustPool w (caFile hcc) (caPath hcc)).
  { destruct (HaveCertAndKey hcc).
    - destruct (loadX509KeyPair w (certPath hcc) (keyPath hcc)); [|discriminate].
      injection Hb as <- _ _. simpl in Hcfg. now injection Hcfg as <-.
    - injection Hb as <- _ _. simpl in Hcfg. now injection Hcfg as <-. }
  rewrite Hpool. apply In_trustPool.
Qed.

Lemma trust_pool_members_witness :
  In "DER:good" ["DER:root1"; "DER:root2"; "DER:bundle"; "DER:good"] <->
  In "DER:good" (startPool Samples.sampleWorld) \/
  (Samples.bundle <> "" /\
   In "DER:good" (fileCerts Samples.sampleWorld Samples.bundle)) \/
  (Samples.caDir <> "" /\
   exists fi, In fi (fst (readDir Samples.sampleWorld Samples.caDir)) /\
              IsDir fi = false /\
              In "DER:good" (fileCerts Samples.sampleWorld
                               (joined Samples.sampleWorld Samples.caDir (Name fi)))).
Proof.
  apply (trust_pool_members Samples.sampleWorld
           (seedCfg Samples.bundle Samples.caDir) "https://gitlab.example.com"
           "https://gitlab.example.com"
           (tlsTransport ["DER:root1"; "DER:root2"; "DER:bundle"; "DER:good"] [])
           None
           {| Http.RootCAs := ["DER:root1"; "DER:root2"; "DER:bundle"; "DER:good"];
              Http.MinVersion := Http.VersionTLS12;
              Http.Certificates := [] |} "DER:good").
  - reflexivity.
  - reflexivity.
Defined.

(* ===================================================================== *)
(** ** What construction reads *)

Lemma filepath_Join_run (w : World) (dir name : string) :
  filepath_Join dir name w = (joined w dir name, []).
Proof.
  unfold joined, filepath_Join, filepath_Clean, ret.
  destruct (String.eqb dir ""); [destruct (String.eqb name "")|]; reflexivity.
Qed.

Lemma rangeCaPath_trace (w : World) (dir : string) (fis : list DirEntry)
      (pool : CertPool) :
  snd (rangeCaPath pool dir fis w)
  = map (fun fi => EvReadFile (clean w (joined w dir (Name fi)))) (filter isFile fis).
Proof.
  revert pool; induction fis as [|fi rest IH]; intros pool; simpl.
  - reflexivity.
  - unfold isFile at 1. destruct (IsDir fi); simpl; [apply IH|].
    unfold bind. rewrite filepath_Join_run.
    pose proof (addCertToPool_trace w pool (joined w dir (Name fi))) as Ht.
    destruct (addCertToPool pool (joined w dir (Name fi)) w) as [pool' t1].
    simpl in Ht. subst t1.
    specialize (IH pool').
    destruct (rangeCaPath pool' dir rest w) as [pool'' t2]. simpl in *.
    now rewrite IH.
Qed.

Lemma buildHTTPSTransport_trace (w : World) (hcc : httpClientCfg) (gitlabURL : string) :
  snd (buildHTTPSTransport hcc gitlabURL w) = buildEvents w hcc.
Proof.
  unfold buildHTTPSTransport, buildEvents, poolEvents, caFileEvents, caPathEvents,
    keyPairEvents.
  unfold bind, x509_SystemCertPool, x509_NewCertPool, tls_LoadX509KeyPair,
    os_ReadDir, ret.
  destruct (systemCertPool w) as [sys|e];
    destruct (nonEmpty (caFile hcc));
    destruct (nonEmpty (caPath hcc));
    try destruct (readDir w (caPath hcc)) as [fis derr];
    repeat match goal with
      | |- context [addCertToPool ?p ?n w] =>
          let H := fresh "H" in
          pose proof (addCertToPool_trace w p n) as H;
          destruct (addCertToPool p n w); simpl in H; subst
      | |- context [rangeCaPath ?p ?d ?f w] =>
          let H := fresh "H" in
          pose proof (rangeCaPath_trace w d f p) as H;
          destruct (rangeCaPath p d f w); simpl in H; subst
      end;
    destruct (HaveCertAndKey hcc);
    try destruct (loadX509KeyPair w (certPath hcc) (keyPath hcc));
    simpl; rewrite ?app_nil_r; reflexivity.
Qed.

Lemma existsb_isStat_map (f : DirEntry -> string) (l : list DirEntry) :
  existsb isStat (map (fun fi => EvReadFile (f fi)) l) = false.
Proof. induction l; simpl; auto. Qed.

(** X7: what [buildHTTPSTransport] reads, in order: the system pool (and
    a new pool when there is none), the CA file when one is set, one
    listing of the CA directory when one is set and then each entry of the
    listing that is not a directory, in the order of the listing, and last
    the key pair when both of its paths are set.  It checks the existence
    of nothing, lists no directory but the CA directory, and reads no
    entry that is a directory. *)
Theorem builder_reads
        (w : World) (hcc : httpClientCfg) (gitlabURL : string) :
  snd (buildHTTPSTransport hcc gitlabURL w)
  = (poolEvents w
       ++ (if nonEmpty (caFile hcc) then [EvReadFile (clean w (caFile hcc))] else [])
       ++ (if nonEmpty (caPath hcc)
           then EvReadDir (caPath hcc)
                :: map (fun fi => EvReadFile (clean w (joined w (caPath hcc) (Name fi))))
                       (filter (fun fi => negb (IsDir fi))
                               (fst (readDir w (caPath hcc))))
           else [])
       ++ (if HaveCertAndKey hcc
           then [EvLoadX509KeyPair (certPath hcc) (keyPath hcc)]
           else []))%list /\
  existsb isStat (snd (buildHTTPSTransport hcc gitlabURL w)) = false.
Proof.
  rewrite buildHTTPSTransport_trace. split; [reflexivity|].
  unfold buildEvents, poolEvents, caFileEvents, caPathEvents, keyPairEvents.
  rewrite !existsb_app.
  destruct (systemCertPool w); destruct (nonEmpty (caFile hcc));
    destruct (nonEmpty (caPath hcc)); destruct (HaveCertAndKey hcc); simpl;
    rewrite ?existsb_isStat_map; reflexivity.
Qed.

(** X8: what construction reads.  For a URL that does not begin with
    [https://] it reads nothing; for one that does, it first checks the
    existence of the CA file when one is set, and goes on to the reads of
    the builder exactly when that check passes. *)
Theorem construction_reads
        (w : World) (gitlabURL root caFile caPath : string) (rt : Z)
        (opts : list HTTPClientOpt) :
  let hcc := applyOpts opts (seedCfg caFile caPath) in
  snd (NewHTTPClientWithOpts gitlabURL root caFile caPath rt opts w)
  = if Strings.HasPrefix gitlabURL httpsProtocol
    then (if nonEmpty caFile
          then EvStat caFile
               :: match stat w caFile with
                  | None => snd (buildHTTPSTransport hcc gitlabURL w)
                  | Some _ => []
                  end
          else snd (buildHTTPSTransport hcc gitlabURL w))
    else [].
Proof.
  intros hcc.
  destruct (Strings.HasPrefix gitlabURL httpsProtocol) eqn:Hs.
  - rewrite (dispatch_https w gitlabURL root caFile caPath rt opts Hs).
    unfold bind, validateCaFile, nonEmpty. fold hcc.
    destruct (String.eqb caFile ""); simpl.
    + destruct (buildHTTPSTransport hcc gitlabURL w) as [[[tr host] [e|]] t];
        simpl; now rewrite app_nil_r.
    + unfold bind, os_Stat.
      destruct (stat w caFile) as [statErr|]; simpl.
      * destruct (IsNotExist statErr); reflexivity.
      * destruct (buildHTTPSTransport hcc gitlabURL w) as [[[tr host] [e|]] t];
          simpl; now rewrite app_nil_r.
  - destruct (Strings.HasPrefix gitlabURL unixSocketProtocol) eqn:Hu.
    { now rewrite (dispatch_unix w gitlabURL root caFile caPath rt opts Hu). }
    destruct (Strings.HasPrefix gitlabURL httpProtocol) eqn:Hh.
    { now rewrite (dispatch_http w gitlabURL root caFile caPath rt opts Hh). }
    now rewrite (dispatch_unknown w gitlabURL root caFile caPath rt opts Hu Hh Hs).
Qed.

(* ===================================================================== *)
(** ** Trust material that yields nothing *)

Lemma applyOpts_optOf_record (ks : list optKind) (hcc : httpClientCfg) :
  applyOpts (map optOf ks) hcc
  = {| keyPath := snd (lastCert ks (certOf hcc));
       certPath := fst (lastCert ks (certOf hcc));
       caFile := caFile hcc;
       caPath := caPath hcc;
       retryWaitMin := fst (fst (lastRetry ks (retryOf hcc)));
       retryWaitMax := snd (fst (lastRetry ks (retryOf hcc)));
       retryMax := snd (lastRetry ks (retryOf hcc)) |}.
Proof.
  revert hcc; induction ks as [|[c k|a b n] ks IH]; intros hcc.
  - destruct hcc; reflexivity.
  - simpl. rewrite IH. reflexivity.
  - simpl. rewrite IH. reflexivity.
Qed.

(** The result of construction on the TLS branch depends on the CA file
    and the CA directory only through the existence check and the trust
    pool. *)
Lemma https_result_same_pool
      (w : World) (gitlabURL root caFile caPath caFile' caPath' : string) (rt : Z)
      (ks : list optKind) :
  Strings.HasPrefix gitlabURL httpsProtocol = true ->
  fst (validateCaFile caFile w) = fst (validateCaFile caFile' w) ->
  trustPool w caFile caPath = trustPool w caFile' caPath' ->
  fst (NewHTTPClientWithOpts gitlabURL root caFile caPath rt (map optOf ks) w)
  = fst (NewHTTPClientWithOpts gitlabURL root caFile' caPath' rt (map optOf ks) w).
Proof.
  intros Hs Hv Hp.
  rewrite !(https_result w gitlabURL root _ _ rt (map optOf ks) Hs).
  rewrite Hv, !buildHTTPSTransport_result, !applyOpts_optOf_record.
  unfold HaveCertAndKey. simpl. rewrite Hp.
  destruct (fst (validateCaFile caFile' w)); [reflexivity|].
  destruct (nonEmpty (snd (lastCert ks ("", ""))) &&
            nonEmpty (fst (lastCert ks ("", "")))).
  - destruct (loadX509KeyPair w _ _); [|reflexivity].
    destruct (systemPoolError w); reflexivity.
  - destruct (systemPoolError w); reflexivity.
Qed.

(** X9: for an [https://] URL, a CA directory that cannot be listed (no
    entry and an error from [os.ReadDir]) gives the result that no CA
    directory gives, and a CA file that passes the existence check but
    cannot be read, or from which no certificate decodes, gives the result
    that no CA file gives: neither is an error. *)
Theorem useless_trust_material_is_ignored
        (w : World) (gitlabURL root caFile caPath : string) (rt : Z)
        (ks : list optKind) :
  Strings.HasPrefix gitlabURL httpsProtocol = true ->
  ((exists e, readDir w caPath = ([], Some e)) ->
   fst (NewHTTPClientWithOpts gitlabURL root caFile caPath rt (map optOf ks) w)
   = fst (NewHTTPClientWithOpts gitlabURL root caFile "" rt (map optOf ks) w)) /\
  (stat w caFile = None ->
   (exists e, readFile w (clean w caFile) = Err e) \/
   (exists data, readFile w (clean w caFile) = Ok data /\
                 pemCertificates w data = []) ->
   fst (NewHTTPClientWithOpts gitlabURL root caFile caPath rt (map optOf ks) w)
   = fst (NewHTTPClientWithOpts gitlabURL root "" caPath rt (map optOf ks) w)).
Proof.
  intros Hs. split.
  - intros [e Hdir]. apply https_result_same_pool; [exact Hs|reflexivity|].
    unfold trustPool. rewrite Hdir. simpl.
    destruct (nonEmpty caPath); reflexivity.
  - intros Hst Hread. apply https_result_same_pool; [exact Hs| |].
    + rewrite !validateCaFile_passes; auto.
    + assert (Hc : fileCerts w caFile = []).
      { unfold fileCerts. destruct Hread as [[e ->]|[data [-> ->]]]; reflexivity. }
      unfold trustPool, poolAfterCaFile. rewrite Hc. simpl.
      destruct (nonEmpty caFile); reflexivity.
Qed.

Lemma useless_trust_material_is_ignored_witness :
  fst (NewHTTPClientWithOpts "https://gitlab.example.com" "" Samples.bundle
         Samples.missing 0 (map optOf []) Samples.sampleWorld)
  = fst (NewHTTPClientWithOpts "https://gitlab.example.com" "" Samples.bundle
           "" 0 (map optOf []) Samples.sampleWorld) /\
  fst (NewHTTPClientWithOpts "https://gitlab.example.com" "" Samples.badPem
         Samples.caDir 0 (map optOf []) Samples.sampleWorld)
  = fst (NewHTTPClientWithOpts "https://gitlab.example.com" "" ""
           Samples.caDir 0 (map optOf []) Samples.sampleWorld) /\
  fst (NewHTTPClientWithOpts "https://gitlab.example.com" "" Samples.caDir
         Samples.caDir 0 (map optOf []) Samples.sampleWorld)
  = fst (NewHTTPClientWithOpts "https://gitlab.example.com" "" ""
           Samples.caDir 0 (map optOf []) Samples.sampleWorld).
Proof.
  split; [|split].
  - apply (proj1 (useless_trust_material_is_ignored Samples.sampleWorld
                    "https://gitlab.example.com" "" Samples.bundle Samples.missing
                    0 [] eq_refl)).
    eexists. reflexivity.
  - apply (proj2 (useless_trust_material_is_ignored Samples.sampleWorld
                    "https://gitlab.example.com" "" Samples.badPem Samples.caDir
                    0 [] eq_refl)).
    + reflexivity.
    + right. eexists. split; reflexivity.
  - apply (proj2 (useless_trust_material_is_ignored Samples.sampleWorld
                    "https://gitlab.example.com" "" Samples.caDir Samples.caDir
                    0 [] eq_refl)).
    + reflexivity.
    + left. eexists. reflexivity.
Defined.

(* ===================================================================== *)
(** ** Options *)

(** X10: options of the package never change the CA file or the CA
    directory given as parameters, and options of different kinds
    commute: a client-certificate option and a retry option give the same
    configuration in either order, anywhere in a list of options. *)
Theorem options_are_independent :
  (forall ks hcc,
      caFile (applyOpts (map optOf ks) hcc) = caFile hcc /\
      caPath (applyOpts (map optOf ks) hcc) = caPath hcc) /\
  (forall before after c k a b n hcc,
      applyOpts (before ++ [WithClientCert c k; WithHTTPRetryOpts a b n] ++ after)%list hcc
      = applyOpts (before ++ [WithHTTPRetryOpts a b n; WithClientCert c k] ++ after)%list
                  hcc).
Proof.
  split; [exact applyOpts_ca|].
  intros before after c k a b n hcc.
  rewrite !applyOpts_app. reflexivity.
Qed.

(* ===================================================================== *)
(** ** The relative root of the socket strategy *)

Lemma Trim_cons (c : ascii) (s cutset : string) :
  Strings.inCutset cutset c = true ->
  Strings.Trim (String c s) cutset = Strings.Trim s cutset.
Proof.
  intros Hc. unfold Strings.Trim. simpl.
  destruct (Strings.trimRight s cutset) eqn:E.
  - rewrite Hc. reflexivity.
  - simpl. rewrite Hc. reflexivity.
Qed.

Lemma trimRight_snoc (c : ascii) (s cutset : string) :
  Strings.inCutset cutset c = true ->
  Strings.trimRight (s ++ String c "") cutset = Strings.trimRight s cutset.
Proof.
  intros Hc. induction s as [|a s IH]; simpl.
  - now rewrite Hc.
  - now rewrite IH.
Qed.

Lemma Trim_leading (a s cutset : string) :
  Strings.allIn cutset a = true ->
  Strings.Trim (a ++ s) cutset = Strings.Trim s cutset.
Proof.
  induction a as [|c a IH]; simpl; [reflexivity|].
  intros H. apply andb_true_iff in H as [Hc Ha].
  rewrite (Trim_cons _ _ _ Hc). now apply IH.
Qed.

Lemma trimRight_trailing (b s cutset : string) :
  Strings.allIn cutset b = true ->
  Strings.trimRight (s ++ b) cutset = Strings.trimRight s cutset.
Proof.
  revert s; induction b as [|c b IH]; intros s H; simpl in *.
  - f_equal. induction s; simpl; congruence.
  - apply andb_true_iff in H as [Hc Hb].
    replace (s ++ String c b) with ((s ++ String c "") ++ b)
      by (rewrite append_assoc; reflexivity).
    rewrite (IH _ Hb). now apply trimRight_snoc.
Qed.

(** X11: on the socket branch the effective host does not depend on the
    slashes around the relative root: a root with any run of slashes put
    before it and after it gives the host the root itself gives. *)
Theorem socket_host_ignores_outer_slashes
        (gitlabURL root before after : string) :
  Strings.allIn "/" before = true ->
  Strings.allIn "/" after = true ->
  snd (buildSocketTransport gitlabURL (before ++ root ++ after))
  = snd (buildSocketTransport gitlabURL root).
Proof.
  intros Hb Ha. unfold buildSocketTransport. simpl.
  rewrite (Trim_leading before (root ++ after) "/" Hb).
  unfold Strings.Trim at 1 2. rewrite (trimRight_trailing after root "/" Ha).
  reflexivity.
Qed.

Lemma socket_host_ignores_outer_slashes_witness :
  Strings.allIn "/" "//" = true /\
  Strings.allIn "/" "/" = true /\
  snd (buildSocketTransport "http+unix:///var/run/gitlab.sock"
                            ("//" ++ "gitlab/api" ++ "/"))
  = snd (buildSocketTransport "http+unix:///var/run/gitlab.sock" "gitlab/api").
Proof.
  split; [reflexivity|]. split; [reflexivity|].
  apply (socket_host_ignores_outer_slashes "http+unix:///var/run/gitlab.sock"
           "gitlab/api" "//" "/"); reflexivity.
Defined.

(* ===================================================================== *)
(** ** The scheme prefixes *)

(** X12: no URL begins with two of the three scheme prefixes, so that the
    order in which construction tries them decides nothing. *)
Theorem scheme_prefixes_exclusive (gitlabURL : string) :
  Strings.HasPrefix gitlabURL unixSocketProtocol
    && Strings.HasPrefix gitlabURL httpProtocol = false /\
  Strings.HasPrefix gitlabURL unixSocketProtocol
    && Strings.HasPrefix gitlabURL httpsProtocol = false /\
  Strings.HasPrefix gitlabURL httpProtocol
    && Strings.HasPrefix gitlabURL httpsProtocol = false.
Proof.
  split; [|split].
  - destruct (Strings.HasPrefix gitlabURL httpProtocol) eqn:H.
    + now rewrite (http_not_unix _ H).
    + apply andb_false_r.
  - destruct (Strings.HasPrefix gitlabURL httpsProtocol) eqn:H.
    + now rewrite (https_not_unix _ H).
    + apply andb_false_r.
  - destruct (Strings.HasPrefix gitlabURL httpsProtocol) eqn:H.
    + now rewrite (https_not_http _ H).
    + apply andb_false_r.
Qed.

(* ===================================================================== *)
(** ** More on the request timeout *)

(** X13: for read-timeouts of at most 9223372036 seconds the timeout is
    at least one second, never the zero duration, and for non-zero values
    it grows strictly with the value. *)
Theorem read_timeout_positive_and_monotone (n m : Z) :
  0 <= n ->
  n < m ->
  m <= 9223372036 ->
  Time.seconds 1 <= readTimeout n /\
  Time.seconds 1 <= readTimeout m /\
  (n <> 0 -> readTimeout n < readTimeout m).
Proof.
  intros Hn Hnm Hm.
  rewrite (readTimeout_in_range n) by lia.
  rewrite (readTimeout_in_range m) by lia.
  unfold Time.seconds.
  destruct (Z.eqb_spec n 0); destruct (Z.eqb_spec m 0); lia.
Qed.

Lemma read_timeout_positive_and_monotone_witness :
  Time.seconds 1 <= readTimeout 0 /\
  Time.seconds 1 <= readTimeout 9223372036 /\
  readTimeout 1 < readTimeout 2.
Proof.
  split; [|split].
  - apply (read_timeout_positive_and_monotone 0 9223372036); lia.
  - apply (read_timeout_positive_and_monotone 0 9223372036); lia.
  - apply (read_timeout_positive_and_monotone 1 2); lia.
Defined.

Lemma int64_congruent (z : Z) : exists k, Time.int64 z = z + k * 2 ^ 64.
Proof.
  unfold Time.int64. exists (- ((z + 2 ^ 63) / 2 ^ 64)).
  pose proof (Z.div_mod (z + 2 ^ 63) (2 ^ 64) ltac:(discriminate)). lia.
Qed.

Lemma int64_zero (z : Z) : Time.int64 z = 0 <-> (2 ^ 64 | z).
Proof.
  split.
  - intros H. destruct (int64_congruent z) as [k Hk]. rewrite H in Hk.
    exists (- k). lia.
  - intros [q ->]. unfold Time.int64.
    rewrite Z.add_comm, Z.mod_add by discriminate. reflexivity.
Qed.

Lemma seconds_divisible (z : Z) :
  (2 ^ 64 | z * 1000000000) <-> (2 ^ 55 | z).
Proof.
  change 1000000000 with (1953125 * 2 ^ 9).
  change (2 ^ 64) with (2 ^ 55 * 2 ^ 9).
  rewrite Z.mul_assoc, Z.mul_divide_cancel_r by discriminate.
  split.
  - intros H. rewrite Z.mul_comm in H. apply Z.gauss in H; [exact H|reflexivity].
  - intros [q ->]. exists (q * 1953125). ring.
Qed.

(** X14: the wrap-around of the timeout.  For a non-zero read-timeout
    within [uint64] the timeout of the client is the zero duration
    exactly when the value is a multiple of 2^55 seconds; for a
    read-timeout of 0 it is not. *)
Theorem read_timeout_zero (n : Z) :
  0 <= n <= Time.maxUint64 ->
  (readTimeout n = 0 <-> n <> 0 /\ (2 ^ 55 | n)).
Proof.
  intros Hn. unfold readTimeout, Time.mul, Time.Second, defaultReadTimeoutSeconds.
  destruct (Z.eqb_spec n 0) as [->|Hne].
  - split; [discriminate | intros [H _]; congruence].
  - rewrite int64_zero.
    destruct (int64_congruent n) as [k ->].
    replace ((n + k * 2 ^ 64) * 1000000000)
      with (n * 1000000000 + (k * 1000000000) * 2 ^ 64) by ring.
    split.
    + intros H. split; [exact Hne|]. apply seconds_divisible.
      apply (Z.divide_add_cancel_r _ ((k * 1000000000) * 2 ^ 64)); [|now rewrite Z.add_comm].
      apply Z.divide_factor_r.
    + intros [_ H]. apply Z.divide_add_r; [now apply seconds_divisible|].
      apply Z.divide_factor_r.
Qed.

Lemma read_timeout_zero_witness :
  0 <= 36028797018963968 <= Time.maxUint64 /\
  readTimeout 36028797018963968 = 0 /\
  exists c,
    fst (NewHTTPClientWithOpts "http://gitlab.example.com" "" "" ""
           36028797018963968 [] Samples.sampleWorld) = (Some c, None) /\
    timeoutOf c = 0.
Proof.
  assert (H : 0 <= 36028797018963968 <= Time.maxUint64)
    by (split; discriminate).
  split; [exact H|].
  assert (Hz : readTimeout 36028797018963968 = 0).
  { apply (proj2 (read_timeout_zero 36028797018963968 H)).
    split; [discriminate|]. exists 1. reflexivity. }
  split; [exact Hz|].
  eexists. split; [reflexivity|]. exact Hz.
Defined.

(* ===================================================================== *)
(** ** [strings.Fields] on ASCII text *)

Import Unicode Fields.

Section FieldsFacts.

Lemma byte_range (c : ascii) : 0 <= byte c < 256.
Proof.
  unfold byte. pose proof (N_ascii_bounded c). lia.
Qed.

Lemma decodeRune_ascii (c : ascii) (s : string) :
  isAscii c = true -> decodeRune (String c s) = (byte c, 1%nat).
Proof.
  unfold isAscii, decodeRune. intros ->. reflexivity.
Qed.

Lemma IsSpace_ascii (c : ascii) :
  isAscii c = true -> IsSpace (byte c) = isAsciiSpace c.
Proof.
  unfold isAscii, IsSpace, isAsciiSpace. intros H. apply Z.ltb_lt in H.
  replace (byte c <=? 255) with true by (symmetry; apply Z.leb_le; lia).
  replace (byte c =? 133) with false by (symmetry; apply Z.eqb_neq; lia).
  replace (byte c =? 160) with false by (symmetry; apply Z.eqb_neq; lia).
  now rewrite !orb_false_r.
Qed.

Lemma isAsciiSpace_isAscii (c : ascii) : isAsciiSpace c = true -> isAscii c = true.
Proof.
  unfold isAsciiSpace, isAscii. intros H. apply Z.ltb_lt.
  repeat (apply orb_true_iff in H as [H|H]); apply Z.eqb_eq in H; lia.
Qed.

(** One step of the loop at an ASCII byte. *)
Lemma fieldsLoop_ascii (c : ascii) (s : string) (space : bool) (cur : option string) :
  isAscii c = true ->
  fieldsLoop (String c s) 0 space cur =
  if isAsciiSpace c then
    match cur with
    | Some field => field :: fieldsLoop s 0 true None
    | None => fieldsLoop s 0 true None
    end
  else
    match cur with
    | Some field => fieldsLoop s 0 false (Some (field ++ String c ""))
    | None => fieldsLoop s 0 false (Some (String c ""))
    end.
Proof.
  intros H. cbn [fieldsLoop]. rewrite (decodeRune_ascii c s H), (IsSpace_ascii c H).
  cbn [Nat.pred]. destruct (isAsciiSpace c); reflexivity.
Qed.

(** Between runes the loop does not look at the kind of the last rune. *)
Lemma fieldsLoop_between (s : string) (space space' : bool) (cur : option string) :
  fieldsLoop s 0 space cur = fieldsLoop s 0 space' cur.
Proof. destruct s; reflexivity. Qed.

Lemma fieldsLoop_pending (s : string) (skip : nat) (space : bool) (field : string) :
  fieldsLoop s skip space (Some field) <> [].
Proof.
  revert skip space field; induction s as [|c s IH]; intros skip space field.
  - discriminate.
  - cbn [fieldsLoop].
    destruct (match skip with
              | O => let (r, width) := decodeRune (String c s) in
                     (IsSpace r, Nat.pred width)
              | S k => (space, k)
              end) as [space' skip'].
    destruct space'; [discriminate|apply IH].
Qed.

Lemma fieldsLoop_blank (s : string) (space : bool) :
  allBytes isAscii s = true ->
  (fieldsLoop s 0 space None = [] <-> allBytes isAsciiSpace s = true).
Proof.
  revert space; induction s as [|c s IH]; intros space H; simpl in H.
  - simpl. tauto.
  - apply andb_true_iff in H as [Hc Hs].
    rewrite (fieldsLoop_ascii c s space None Hc). cbn [allBytes].
    destruct (isAsciiSpace c); simpl.
    + now apply IH.
    + split; [|discriminate]. intros H. now apply fieldsLoop_pending in H.
Qed.

Lemma fieldsLoop_spaces (ws s : string) (space : bool) :
  allBytes isAsciiSpace ws = true ->
  fieldsLoop (ws ++ s) 0 space None = fieldsLoop s 0 space None.
Proof.
  revert space; induction ws as [|c ws IH]; intros space H; simpl in H.
  - reflexivity.
  - apply andb_true_iff in H as [Hc Hs]. cbn [append].
    rewrite (fieldsLoop_ascii c _ space None (isAsciiSpace_isAscii c Hc)), Hc.
    rewrite (IH true Hs). apply fieldsLoop_between.
Qed.

Lemma fieldsLoop_token (tok s : string) (space : bool) (field : string) :
  allBytes isToken tok = true ->
  fieldsLoop (tok ++ s) 0 space (Some field)
  = fieldsLoop s 0 space (Some (field ++ tok)).
Proof.
  revert space field; induction tok as [|c tok IH]; intros space field H; simpl in H.
  - simpl. replace (field ++ "") with field; [reflexivity|].
    clear. induction field; simpl; congruence.
  - apply andb_true_iff in H as [Hc Hs].
    unfold isToken in Hc. apply andb_true_iff in Hc as [Ha Hn].
    apply negb_true_iff in Hn. cbn [append].
    rewrite (fieldsLoop_ascii c _ space (Some field) Ha), Hn.
    rewrite (IH false _ Hs).
    replace ((field ++ String c "") ++ tok) with (field ++ String c tok)
      by (rewrite append_assoc; reflexivity).
    apply fieldsLoop_between.
Qed.

(** The first field of a string that begins, after ASCII white space, with
    a token of ASCII bytes that ends the string or is followed by ASCII
    white space. *)
Lemma Fields_first_token (ws tok rest : string) :
  allBytes isAsciiSpace ws = true ->
  tok <> "" ->
  allBytes isToken tok = true ->
  rest = "" \/ (exists c rest', rest = String c rest' /\ isAsciiSpace c = true) ->
  exists more, Fields (ws ++ tok ++ rest) = tok :: more.
Proof.
  intros Hws Hne Htok Hrest. unfold Fields.
  rewrite (fieldsLoop_spaces ws _ false Hws).
  destruct tok as [|c tok]; [congruence|]. simpl in Htok.
  apply andb_true_iff in Htok as [Hc Htok].
  unfold isToken in Hc. apply andb_true_iff in Hc as [Ha Hn].
  apply negb_true_iff in Hn. cbn [append].
  rewrite (fieldsLoop_ascii c _ false None Ha), Hn.
  rewrite (fieldsLoop_token tok rest false _ Htok). cbn [append].
  destruct Hrest as [->|(d & rest' & -> & Hd)].
  - exists []. reflexivity.
  - rewrite (fieldsLoop_ascii d _ false _ (isAsciiSpace_isAscii d Hd)), Hd. eauto.
Qed.

Lemma inRange_not_ascii (lo hi : Z) (c : ascii) :
  128 <= lo -> inRange lo hi (byte c) = true -> isAscii c = false.
Proof.
  unfold inRange, isAscii. intros Hlo H.
  apply andb_true_iff in H as [H _]. apply Z.leb_le in H.
  apply Z.ltb_ge. lia.
Qed.

Lemma acceptRange_lo (s0 : Z) : 128 <= fst (acceptRange s0).
Proof.
  unfold acceptRange.
  destruct (s0 =? 224); [simpl; lia|].
  destruct (s0 =? 237); [simpl; lia|].
  destruct (s0 =? 240); [simpl; lia|].
  destruct (s0 =? 244); simpl; lia.
Qed.

(** The bytes of a rune after its first are not ASCII. *)
Lemma decodeRune_continues (c : ascii) (s : string) :
  continues (Nat.pred (snd (decodeRune (String c s)))) s = true.
Proof.
  unfold decodeRune.
  destruct (byte c <? 128); [reflexivity|].
  destruct ((byte c <? 194) || (244 <? byte c)); [reflexivity|].
  pose proof (acceptRange_lo (byte c)) as Hlo.
  destruct (acceptRange (byte c)) as [lo hi]. simpl in Hlo.
  destruct s as [|c1 s1]; [reflexivity|].
  destruct (inRange lo hi (byte c1)) eqn:E1; [|reflexivity].
  apply (inRange_not_ascii lo hi c1 Hlo) in E1. cbn [negb].
  destruct (byte c <? 224); [simpl; now rewrite E1|].
  destruct s1 as [|c2 s2]; [reflexivity|].
  destruct (inRange 128 191 (byte c2)) eqn:E2; [|reflexivity].
  apply (inRange_not_ascii 128 191 c2 ltac:(lia)) in E2. cbn [negb].
  destruct (byte c <? 240); [simpl; now rewrite E1, E2|].
  destruct s2 as [|c3 s3]; [reflexivity|].
  destruct (inRange 128 191 (byte c3)) eqn:E3; [|reflexivity].
  apply (inRange_not_ascii 128 191 c3 ltac:(lia)) in E3.
  simpl. now rewrite E1, E2, E3.
Qed.

Lemma spaceless_app (a b : string) :
  spaceless (a ++ b) = spaceless a && spaceless b.
Proof.
  unfold spaceless. induction a as [|c a IH]; simpl; [reflexivity|].
  now rewrite IH, andb_assoc.
Qed.

Lemma append_not_empty (a : string) (c : ascii) : a ++ String c "" <> "".
Proof. destruct a; discriminate. Qed.

Lemma fieldsLoop_fields (s : string) (skip : nat) (space : bool) (cur : option string) :
  continues skip s = true ->
  (forall field, cur = Some field -> fieldOk field) ->
  Forall fieldOk (fieldsLoop s skip space cur).
Proof.
  revert skip space cur; induction s as [|c s IH]; intros skip space cur Hk Hcur.
  - destruct cur; simpl; auto.
  - cbn [fieldsLoop].
    assert (Hstep : exists space' skip',
               match skip with
               | O => let (r, width) := decodeRune (String c s) in
                      (IsSpace r, Nat.pred width)
               | S k => (space, k)
               end = (space', skip') /\
               continues skip' s = true /\
               (space' = false -> isAsciiSpace c = false)).
    { destruct skip as [|k].
      - pose proof (decodeRune_continues c s) as Hc.
        destruct (decodeRune (String c s)) as [r width] eqn:Ed. simpl in Hc.
        exists (IsSpace r), (Nat.pred width). split; [reflexivity|]. split; [exact Hc|].
        intros Hsp. destruct (isAsciiSpace c) eqn:Ec; [|reflexivity].
        pose proof (isAsciiSpace_isAscii c Ec) as Ha.
        rewrite (decodeRune_ascii c s Ha) in Ed. injection Ed as <- _.
        rewrite (IsSpace_ascii c Ha) in Hsp. congruence.
      - simpl in Hk. apply andb_true_iff in Hk as [Hc Hk].
        exists space, k. split; [reflexivity|]. split; [exact Hk|].
        intros _. apply negb_true_iff in Hc.
        destruct (isAsciiSpace c) eqn:Ec; [|reflexivity].
        apply isAsciiSpace_isAscii in Ec. congruence. }
    destruct Hstep as (space' & skip' & -> & Hk' & Hc).
    destruct space'.
    + destruct cur as [field|].
      * constructor; [now apply Hcur|]. apply IH; [exact Hk'|discriminate].
      * apply IH; [exact Hk'|discriminate].
    + specialize (Hc eq_refl).
      destruct cur as [field|]; apply IH; try exact Hk'; intros f [= <-].
      * destruct (Hcur field eq_refl) as [_ Hs]. split; [apply append_not_empty|].
        rewrite spaceless_app, Hs. unfold spaceless. simpl. now rewrite Hc.
      * split; [discriminate|]. unfold spaceless. simpl. now rewrite Hc.
Qed.

Lemma Fields_fields (s : string) : Forall fieldOk (Fields s).
Proof. apply fieldsLoop_fields; [reflexivity|discriminate]. Qed.

End FieldsFacts.

(* ===================================================================== *)
(** ** [sshenv.NewFromEnv] *)

Import Sshenv.

(** X15: when the value of [SSH_CONNECTION] begins, after any ASCII white
    space, with a non-empty token of ASCII bytes none of which is white
    space, and the token ends the value or is followed by an ASCII
    white-space byte, [NewFromEnv] returns, the remote address is that
    token, and the connection is marked as an SSH connection. *)
Theorem remote_addr_is_first_token
        (env : Environ) (ws tok rest : string) :
  os_Getenv env SSHConnectionEnv = ws ++ tok ++ rest ->
  allBytes isAsciiSpace ws = true ->
  tok <> "" ->
  allBytes isToken tok = true ->
  rest = "" \/ (exists c rest', rest = String c rest' /\ isAsciiSpace c = true) ->
  exists e,
    NewFromEnv env = Returns e /\
    RemoteAddr e = tok /\
    IsSSHConnection e = true.
Proof.
  intros Haddr Hws Hne Htok Hrest.
  destruct (Fields_first_token ws tok rest Hws Hne Htok Hrest) as [more Hf].
  assert (Hnz : String.eqb (ws ++ tok ++ rest) "" = false).
  { apply String.eqb_neq. destruct ws; [|discriminate].
    destruct tok; [congruence|discriminate]. }
  unfold NewFromEnv, remoteAddrFromEnv. rewrite Haddr, Hnz, Hf. simpl.
  eexists. repeat split.
Qed.

Lemma remote_addr_is_first_token_witness :
  exists e,
    NewFromEnv (withConnection "10.0.0.1 4242 10.0.0.2 22") = Returns e /\
    RemoteAddr e = "10.0.0.1" /\
    IsSSHConnection e = true.
Proof.
  apply (remote_addr_is_first_token (withConnection "10.0.0.1 4242 10.0.0.2 22")
           "" "10.0.0.1" " 4242 10.0.0.2 22").
  - reflexivity.
  - reflexivity.
  - discriminate.
  - reflexivity.
  - right. exists " "%char, "4242 10.0.0.2 22". split; reflexivity.
Defined.

(** X16: when the value of [SSH_CONNECTION] is made of ASCII bytes,
    [NewFromEnv] panics exactly when the value is not empty and holds
    nothing but white space (space, tab, line feed, vertical tab, form
    feed, carriage return); with the variable unset or empty it
    returns. *)
Theorem NewFromEnv_panics_on_blank_connection (env : Environ) :
  allBytes isAscii (os_Getenv env SSHConnectionEnv) = true ->
  ((exists msg, NewFromEnv env = Panics msg) <->
   os_Getenv env SSHConnectionEnv <> "" /\
   allBytes isAsciiSpace (os_Getenv env SSHConnectionEnv) = true).
Proof.
  intros Ha. unfold NewFromEnv, remoteAddrFromEnv.
  destruct (String.eqb (os_Getenv env SSHConnectionEnv) "") eqn:E; simpl.
  - apply String.eqb_eq in E. split.
    + intros [msg H]. discriminate.
    + intros [H _]. congruence.
  - apply String.eqb_neq in E.
    pose proof (fieldsLoop_blank _ false Ha) as Hb. fold (Fields (os_Getenv env SSHConnectionEnv)) in Hb.
    destruct (Fields (os_Getenv env SSHConnectionEnv)) as [|field more].
    + split; [intros _; split; [exact E|now apply Hb] | eauto].
    + split.
      * intros [msg H]. discriminate.
      * intros [_ H]. apply Hb in H. discriminate.
Qed.

Lemma NewFromEnv_panics_on_blank_connection_witness :
  allBytes isAscii (os_Getenv (withConnection "  ") SSHConnectionEnv) = true /\
  (exists msg, NewFromEnv (withConnection "  ") = Panics msg) /\
  (exists e, NewFromEnv (fun _ => None) = Returns e).
Proof.
  split; [reflexivity|]. split.
  - apply (proj2 (NewFromEnv_panics_on_blank_connection (withConnection "  ") eq_refl)).
    split; [discriminate|reflexivity].
  - eexists. reflexivity.
Defined.

(** X17: what [NewFromEnv] returns, whenever it returns: the connection
    is marked as an SSH connection exactly when [SSH_CONNECTION] is set to
    a non-empty value, and exactly when the remote address is not empty;
    the remote address holds no ASCII white space; the protocol version
    and the original command are the values of their variables (empty
    when unset); the namespace path is empty. *)
Theorem NewFromEnv_returns (env : Environ) (e : Env) :
  NewFromEnv env = Returns e ->
  (IsSSHConnection e = true <-> os_Getenv env SSHConnectionEnv <> "") /\
  (IsSSHConnection e = true <-> RemoteAddr e <> "") /\
  spaceless (RemoteAddr e) = true /\
  GitProtocolVersion e = os_Getenv env GitProtocolEnv /\
  OriginalCommand e = os_Getenv env SSHOriginalCommandEnv /\
  NamespacePath e = "".
Proof.
  unfold NewFromEnv, remoteAddrFromEnv.
  destruct (String.eqb (os_Getenv env SSHConnectionEnv) "") eqn:E; simpl.
  - apply String.eqb_eq in E. intros [= <-]. simpl.
    repeat split; try discriminate; intros H; congruence.
  - apply String.eqb_neq in E.
    pose proof (Fields_fields (os_Getenv env SSHConnectionEnv)) as Hf.
    destruct (Fields (os_Getenv env SSHConnectionEnv)) as [|field more];
      [discriminate|].
    apply Forall_inv in Hf as [Hne Hsp].
    intros [= <-]. simpl. repeat split; auto.
Qed.

Lemma NewFromEnv_returns_witness :
  NewFromEnv (withConnection "  10.0.0.1	4242 10.0.0.2 22")
  = Returns {| GitProtocolVersion := "version=2";
               IsSSHConnection := true;
               OriginalCommand := "git-upload-pack 'group/project.git'";
               RemoteAddr := "10.0.0.1";
               NamespacePath := "" |} /\
  (true = true <-> "10.0.0.1" <> "") /\
  spaceless "10.0.0.1" = true.
Proof.
  split; [reflexivity|].
  destruct (NewFromEnv_returns (withConnection "  10.0.0.1	4242 10.0.0.2 22") _ eq_refl)
    as (_ & H & Hs & _).
  split; [exact H|exact Hs].
Defined.
